(** * Feedback Analyzer API: a shallow embedding of [main.py]

    The handlers of [main.py] are translated to Rocq functions:
    - Python dictionaries are association lists that keep insertion order
      (the order is observable through [sorted] and through the rendering
      of the "Most frequent issues" line);
    - a handler that raises [HTTPException] returns the [HTTPException]
      constructor of [response];
    - the process-wide handle [db] and the contents of the document store
      are fields of the explicit state [App] that every storage handler
      receives and returns. *)

From Stdlib Require Import List String Ascii ZArith Arith Bool Lia.
From Stdlib Require Import Sorting.Sorted Sorting.Permutation.
From Stdlib Require Import Numbers.DecimalString.
Import ListNotations.

Local Open Scope list_scope.
Local Open Scope string_scope.
Local Open Scope nat_scope.

Set Implicit Arguments.

(* ================================================================== *)
(** * Python primitives *)

(** [str(n)] for a non-negative integer. *)
Definition str_of_nat (n : nat) : string :=
  NilZero.string_of_uint (Nat.to_uint n).

(** [sep.join(l)] *)
Fixpoint join (sep : string) (l : list string) : string :=
  match l with
  | [] => ""
  | [x] => x
  | x :: rest => x ++ sep ++ join sep rest
  end.

(** [needle in hay] on strings, used to speak about lines of the summary. *)
Fixpoint containsb (needle hay : string) : bool :=
  prefix needle hay ||
  match hay with
  | EmptyString => false
  | String _ hay' => containsb needle hay'
  end.

Definition Contains (hay needle : string) : Prop :=
  exists pre post, hay = pre ++ needle ++ post.

(** ** Dictionaries

    A [dict] keeps its keys in insertion order; assigning to a key that is
    already present replaces the value and leaves the position alone. *)
Module PyDict.
Section Dict.
Variables K V : Type.
Variable K_eq_dec : forall a b : K, {a = b} + {a <> b}.

Definition dict := list (K * V).

(** [d.get(k)] *)
Fixpoint get (k : K) (d : dict) : option V :=
  match d with
  | [] => None
  | (k', v) :: d' => if K_eq_dec k k' then Some v else get k d'
  end.

(** [d.get(k, default)] *)
Definition get_default (k : K) (default : V) (d : dict) : V :=
  match get k d with
  | Some v => v
  | None => default
  end.

(** [d[k] = v] *)
Fixpoint set (k : K) (v : V) (d : dict) : dict :=
  match d with
  | [] => [(k, v)]
  | (k', v') :: d' =>
      if K_eq_dec k k' then (k, v) :: d' else (k', v') :: set k v d'
  end.

(** the dictionary left by [d.pop(k)] *)
Fixpoint remove (k : K) (d : dict) : dict :=
  match d with
  | [] => []
  | (k', v') :: d' =>
      if K_eq_dec k k' then d' else (k', v') :: remove k d'
  end.

(** [k in d] *)
Definition mem (k : K) (d : dict) : bool :=
  match get k d with Some _ => true | None => false end.

Definition keys (d : dict) : list K := map fst d.
Definition values (d : dict) : list V := map snd d.
Definition items (d : dict) : list (K * V) := d.
End Dict.
End PyDict.

Abbreviation dict := PyDict.dict.

(** [sorted(l, key=lambda x: x[1], reverse=True)]: a stable sort on the
    second component, largest first.  With [reverse=True] Python keeps the
    original relative order of elements whose keys are equal. *)
Section Sorted.
Variable K : Type.

Fixpoint insert_desc (x : K * nat) (l : list (K * nat)) : list (K * nat) :=
  match l with
  | [] => [x]
  | y :: l' =>
      if (snd x <? snd y)%nat then y :: insert_desc x l' else x :: y :: l'
  end.

Fixpoint sorted_by_count_desc (l : list (K * nat)) : list (K * nat) :=
  match l with
  | [] => []
  | x :: l' => insert_desc x (sorted_by_count_desc l')
  end.
End Sorted.

(** [sum(l)] *)
Definition sum (l : list nat) : nat := fold_right Nat.add 0 l.

(* ================================================================== *)
(** * HTTP responses *)

Inductive response (A : Type) : Type :=
| OK (body : A)
| HTTPException (status_code : nat) (detail : string).
Arguments OK {A} body.
Arguments HTTPException {A} status_code detail.

(* ================================================================== *)
(** * The insights endpoint: [POST /api/analytics/insights] *)

(** [class FeedbackOut(BaseModel)] *)
Record FeedbackOut : Type := {
  id : string;
  question : string;
  response_ : string;
  improvement : string;
  category : string;
  severity : option string;
  created_at : option string
}.

(** [class InsightRequest(BaseModel)] *)
Record InsightRequest : Type := {
  items : list FeedbackOut;
  scope : string
}.

Definition recommendation : string :=
  "Recommended actions: tighten instruction following, prefer concise answers, and ask clarifying questions when intent is ambiguous.".

(** The loop
    [for it in req.items: categories[it.category] = categories.get(it.category, 0) + 1] *)
Definition count_categories (its : list FeedbackOut) : dict string nat :=
  fold_left
    (fun categories it =>
       PyDict.set string_dec (category it)
         (PyDict.get_default string_dec (category it) 0 categories + 1)
         categories)
    its [].

(** [top = sorted(categories.items(), key=lambda x: x[1], reverse=True)] *)
Definition top_categories (its : list FeedbackOut) : list (string * nat) :=
  sorted_by_count_desc (PyDict.items (count_categories its)).

(** [f"{k}: {v}"] *)
Definition fmt_entry (kv : string * nat) : string :=
  fst kv ++ ": " ++ str_of_nat (snd kv).

(** [", ".join([f"{k}: {v}" for k, v in top[:3]])] *)
Definition head_of (top : list (string * nat)) : string :=
  join ", " (map fmt_entry (firstn 3 top)).

Definition issues_line (top : list (string * nat)) : string :=
  "Most frequent issues: " ++ head_of top ++ ".".

Definition summary_lines (req : InsightRequest) : list string :=
  let total := List.length (items req) in
  let top := top_categories (items req) in
  let summary_lines := ["Analyzed " ++ str_of_nat total ++ " feedback item(s)."] in
  let summary_lines :=
    match top with
    | [] => summary_lines
    | _ :: _ => (summary_lines ++ [issues_line top])%list
    end in
  let summary_lines :=
    if (0 <? total)%nat then (summary_lines ++ [recommendation])%list
    else summary_lines in
  summary_lines.

(** The value under the key ["summary"] of the returned object. *)
Definition generate_ai_insights_summary (req : InsightRequest) : string :=
  join " " (summary_lines req).

(** The handler: it has no failing path. *)
Definition generate_ai_insights (req : InsightRequest)
  : response (dict string string) :=
  OK [("summary", generate_ai_insights_summary req)].

(* ================================================================== *)
(** * Stored documents *)

(** [datetime]: [isoformat()] separates date and time by [T], [str] by a
    blank. *)
Record datetime : Type := { date_part : string; time_part : string }.

Definition isoformat (t : datetime) : string :=
  date_part t ++ "T" ++ time_part t.

(** The values held by the fields of a feedback document. *)
Inductive value : Type :=
| VNone
| VStr (s : string)
| VObjectId (hex : string)
| VDatetime (t : datetime).

Definition datetime_eq_dec (a b : datetime) : {a = b} + {a <> b}.
Proof. decide equality; apply string_dec. Defined.

Definition value_eq_dec (a b : value) : {a = b} + {a <> b}.
Proof. decide equality; try apply string_dec; apply datetime_eq_dec. Defined.

(** Truth value of a Python object: [None] and the empty string are false. *)
Definition truthy (v : value) : bool :=
  match v with
  | VNone => false
  | VStr s => negb (s =? "")%string
  | VObjectId _ => true
  | VDatetime _ => true
  end.

(** [a or b] *)
Definition py_or (a b : value) : value := if truthy a then a else b.

(** [str(v)] *)
Definition py_str (v : value) : string :=
  match v with
  | VNone => "None"
  | VStr s => s
  | VObjectId hex => hex
  | VDatetime t => date_part t ++ " " ++ time_part t
  end.

Definition document : Type := dict string value.

(** [_serialize(doc)] *)
Definition _serialize (doc : document) : document :=
  let doc :=
    match PyDict.get string_dec "_id" doc with
    | Some v =>
        if truthy v
        then PyDict.set string_dec "id" (VStr (py_str v))
               (PyDict.remove string_dec "_id" doc)
        else doc
    | None => doc
    end in
  fold_left
    (fun doc key =>
       match PyDict.get string_dec key doc with
       | Some (VDatetime t) => PyDict.set string_dec key (VStr (isoformat t)) doc
       | _ => doc
       end)
    ["created_at"; "updated_at"] doc.

(* ================================================================== *)
(** * The store and the handle [db] *)

(** The document store: its collections by name, the next identifier it
    will issue, its clock, and the error it answers every operation with
    while it is out of order ([None] when it works). *)
Record Store : Type := {
  collections : dict string (list document);
  next_oid : nat;
  clock : datetime;
  fault : option string
}.

(** The state the storage handlers run in: [db] is the module-level
    handle, [None] when no connection string is configured. *)
Record App : Type := {
  db : option string;
  store : Store
}.

(** [db[name]]: a collection that was never written to is empty. *)
Definition collection (st : Store) (name : string) : list document :=
  PyDict.get_default string_dec name [] (collections st).

(** Modelled from the spec: the class [Feedback] of [schemas.py], which
    [FeedbackCreate], the payload of [POST /api/feedback], extends without
    change; section 3 gives its five user-settable fields. *)
Record FeedbackCreate : Type := {
  fc_question : string;
  fc_response : string;
  fc_improvement : string;
  fc_category : string;
  fc_severity : option string
}.

Definition opt_str (o : option string) : value :=
  match o with Some s => VStr s | None => VNone end.

Definition model_dump (p : FeedbackCreate) : document :=
  [("question", VStr (fc_question p));
   ("response", VStr (fc_response p));
   ("improvement", VStr (fc_improvement p));
   ("category", VStr (fc_category p));
   ("severity", opt_str (fc_severity p))].

(** Modelled from the spec: [create_document] of [database.py] (section
    4.2, [insert]): it persists the record, stamped with a creation
    identifier and, if absent, a creation timestamp, and returns the
    identifier as text; it fails when the store is not configured. *)
Definition create_document (app : App) (collection_name : string)
    (data : FeedbackCreate) : option (string * App) :=
  match db app, fault (store app) with
  | None, _ | _, Some _ => None
  | Some _, None =>
      let st := store app in
      let oid := VObjectId (str_of_nat (next_oid st)) in
      let doc := model_dump data in
      let doc :=
        if PyDict.mem string_dec "created_at" doc then doc
        else PyDict.set string_dec "created_at" (VDatetime (clock st)) doc in
      let doc := PyDict.set string_dec "_id" oid doc in
      let coll := (collection st collection_name ++ [doc])%list in
      Some (py_str oid,
            {| db := db app;
               store := {| collections :=
                             PyDict.set string_dec collection_name coll
                               (collections st);
                           next_oid := S (next_oid st);
                           clock := clock st;
                           fault := fault st |} |})
  end.

(** A document matches an equality filter when it holds every field of
    the filter with the filter's value. *)
Definition matches (filt doc : document) : bool :=
  forallb
    (fun kv =>
       match PyDict.get string_dec (fst kv) doc with
       | Some v => if value_eq_dec v (snd kv) then true else false
       | None => false
       end)
    filt.

(** Modelled from the spec: [get_documents] of [database.py] (section 4.2,
    [query]): up to [limit] records matching an equality filter, in
    insertion order; it fails when the store is not configured. *)
Definition get_documents (app : App) (collection_name : string)
    (filter_dict : document) (limit : Z) : option (list document) :=
  match db app, fault (store app) with
  | None, _ | _, Some _ => None
  | Some _, None =>
      Some (firstn (Z.to_nat limit)
              (filter (matches filter_dict)
                 (collection (store app) collection_name)))
  end.

(** An exception that no handler catches is answered with status 500. *)
Definition internal_server_error {A : Type} : response A :=
  HTTPException 500 "Internal Server Error".

(* ================================================================== *)
(** * Feedback endpoints *)

(** [POST /api/feedback] *)
Definition create_feedback (app : App) (payload : FeedbackCreate)
  : response (dict string string) * App :=
  match db app with
  | None => (HTTPException 500 "Database not configured", app)
  | Some _ =>
      match create_document app "feedback" payload with
      | Some (inserted_id, app') => (OK [("id", inserted_id)], app')
      | None => (internal_server_error, app)
      end
  end.

(** [GET /api/feedback]; [category] is [None] when the query parameter is
    absent. *)
Definition list_feedback (app : App) (limit : Z) (category : option string)
  : response (list document) * App :=
  match db app with
  | None => (HTTPException 500 "Database not configured", app)
  | Some _ =>
      let filt : document := [] in
      let filt :=
        if truthy (opt_str category)
        then PyDict.set string_dec "category" (opt_str category) filt
        else filt in
      match get_documents app "feedback" filt limit with
      | Some docs => (OK (map _serialize docs), app)
      | None => (internal_server_error, app)
      end
  end.

(* ================================================================== *)
(** * Aggregation: [GET /api/analytics/summary] *)

(** The field path ["$category"]: a missing field groups with [null]. *)
Definition field_path (doc : document) (field : string) : value :=
  PyDict.get_default string_dec field VNone doc.

(** The stage [{"$group": {"_id": "$category", "count": {"$sum": 1}}}]:
    one output document per distinct value of the field, with the number
    of input documents that hold it.  The server promises no order for
    the groups; they are listed here in the order of first encounter. *)
Definition group_count (coll : list document) : list (value * nat) :=
  fold_left
    (fun groups doc =>
       let k := field_path doc "category" in
       PyDict.set value_eq_dec k
         (PyDict.get_default value_eq_dec k 0 groups + 1) groups)
    coll [].

(** The pipeline on the documents of a collection: the groups, then
    [{"$sort": {"count": -1}}], which leaves tied groups in the order it
    found them. *)
Definition aggregate (coll : list document) : list (value * nat) :=
  sorted_by_count_desc (group_count coll).

(** [list(db[name].aggregate(pipeline))]: the error of the store when it
    is out of order. *)
Definition run_aggregate (st : Store) (name : string)
  : string + list (value * nat) :=
  match fault st with
  | Some e => inl e
  | None => inr (aggregate (collection st name))
  end.

(** The returned object [{"total": total, "breakdown": breakdown}]. *)
Record Summary : Type := {
  total : nat;
  breakdown : dict value nat
}.

(** [{item["_id"] or "Unknown": item["count"] for item in agg}] *)
Definition breakdown_of (agg : list (value * nat)) : dict value nat :=
  fold_left
    (fun breakdown item =>
       PyDict.set value_eq_dec (py_or (fst item) (VStr "Unknown")) (snd item)
         breakdown)
    agg [].

(** Lines 126 to 129, from the aggregation result on. *)
Definition summary_of (agg : list (value * nat)) : Summary :=
  let breakdown := breakdown_of agg in
  let total := sum (PyDict.values breakdown) in
  {| total := total; breakdown := breakdown |}.

(** [GET /api/analytics/summary]; the [except] branch answers with the
    text of the exception. *)
Definition analytics_summary (app : App) : response Summary * App :=
  match db app with
  | None => (HTTPException 500 "Database not configured", app)
  | Some _ =>
      match run_aggregate (store app) "feedback" with
      | inr agg => (OK (summary_of agg), app)
      | inl e => (HTTPException 500 e, app)
      end
  end.

(* ================================================================== *)
(** * Request validation of the insights endpoint *)

(** A field of a JSON object as the request model sees it: absent,
    [null], a string, or any other JSON value (a number, a boolean, an
    array or an object). *)
Inductive json_field : Type :=
| Missing
| Null
| JStr (s : string)
| JOther.

Record RawFeedbackOut : Type := {
  raw_id : json_field;
  raw_question : json_field;
  raw_response : json_field;
  raw_improvement : json_field;
  raw_category : json_field;
  raw_severity : json_field;
  raw_created_at : json_field
}.

(** [None] for [raw_items] is an absent key. *)
Record RawInsightRequest : Type := {
  raw_items : option (list RawFeedbackOut);
  raw_scope : json_field
}.

(** A field annotated [str]: required, and neither [null] nor a value of
    another type is a string (the model does not convert numbers to
    text).  [None] is a validation error. *)
Definition required_str (f : json_field) : option string :=
  match f with
  | JStr s => Some s
  | Missing | Null | JOther => None
  end.

(** A field annotated [Optional[str] = default]: the outer [None] is a
    validation error, the inner one the value [None]. *)
Definition optional_str (default : option string) (f : json_field)
  : option (option string) :=
  match f with
  | Missing => Some default
  | Null => Some None
  | JStr s => Some (Some s)
  | JOther => None
  end.

(** A field annotated [str = Field(default)]. *)
Definition defaulted_str (default : string) (f : json_field) : option string :=
  match f with
  | Missing => Some default
  | JStr s => Some s
  | Null | JOther => None
  end.

Definition validate_FeedbackOut (raw : RawFeedbackOut) : option FeedbackOut :=
  match required_str (raw_id raw), required_str (raw_question raw),
        required_str (raw_response raw), required_str (raw_improvement raw),
        required_str (raw_category raw),
        optional_str (Some "medium") (raw_severity raw),
        optional_str None (raw_created_at raw) with
  | Some i, Some q, Some r, Some m, Some c, Some sv, Some ca =>
      Some {| id := i; question := q; response_ := r; improvement := m;
              category := c; severity := sv; created_at := ca |}
  | _, _, _, _, _, _, _ => None
  end.

Fixpoint validate_items (raws : list RawFeedbackOut)
  : option (list FeedbackOut) :=
  match raws with
  | [] => Some []
  | raw :: raws' =>
      match validate_FeedbackOut raw, validate_items raws' with
      | Some it, Some its => Some (it :: its)
      | _, _ => None
      end
  end.

Definition validate_InsightRequest (raw : RawInsightRequest)
  : option InsightRequest :=
  let its :=
    match raw_items raw with
    | None => Some []
    | Some raws => validate_items raws
    end in
  match its, defaulted_str "all" (raw_scope raw) with
  | Some its, Some sc => Some {| items := its; scope := sc |}
  | _, _ => None
  end.

(** The route: the framework validates the body against
    [InsightRequest] before the handler runs; a body that does not
    validate is answered with 422 and the handler is not called. *)
Definition post_insights (raw : RawInsightRequest)
  : response (dict string string) :=
  match validate_InsightRequest raw with
  | Some req => generate_ai_insights req
  | None => HTTPException 422 "Unprocessable Entity"
  end.

(* ================================================================== *)
(** * Specification vocabulary *)

(** Counting by key, the loop shared by the summarizer's [categories]
    dictionary and by the grouping stage. *)
Section Tally.
Variables A K : Type.
Variable K_eq_dec : forall a b : K, {a = b} + {a <> b}.
Variable key : A -> K.

Definition tally (l : list A) : dict K nat :=
  fold_left
    (fun d x =>
       PyDict.set K_eq_dec (key x)
         (PyDict.get_default K_eq_dec (key x) 0 d + 1) d)
    l [].

(** Position of the first occurrence of [k] in [l]; [length l] when [k]
    does not occur. *)
Fixpoint index_of (k : K) (l : list K) : nat :=
  match l with
  | [] => 0
  | x :: l' => if K_eq_dec k x then 0 else S (index_of k l')
  end.

(** Number of elements of [l] whose key is [k]. *)
Definition occurrences (k : K) (l : list A) : nat :=
  count_occ K_eq_dec (map key l) k.
End Tally.

(** [a] is ranked before [b]: a larger count, or the same count and [a]
    comes first for [R]. *)
Definition ranked (K : Type) (R : K -> K -> Prop) (a b : K * nat) : Prop :=
  snd b < snd a \/ (snd a = snd b /\ R (fst a) (fst b)).

(** Largest count first. *)
Definition count_desc (K : Type) (a b : K * nat) : Prop := snd b <= snd a.

(** Number of items of the request whose category is [k]. *)
Definition item_count (its : list FeedbackOut) (k : string) : nat :=
  occurrences string_dec category k its.

(** Position in the request of the first item whose category is [k]. *)
Definition first_seen (its : list FeedbackOut) (k : string) : nat :=
  index_of string_dec k (map category its).

(** The categories that occur in the request, each once. *)
Definition distinct_categories (its : list FeedbackOut) : list string :=
  nodup string_dec (map category its).

(** The entries the "Most frequent issues" line lists: [top[:3]]. *)
Definition listed (its : list FeedbackOut) : list (string * nat) :=
  firstn 3 (top_categories its).

Definition analyzed_line (n : nat) : string :=
  "Analyzed " ++ str_of_nat n ++ " feedback item(s).".

(** ** The summary as the specification words it

    These definitions do not use the functions of the handler: the
    number is written in decimal, an entry is "{cat}: {n}", and the line
    is "Most frequent issues: {cat1}: {n1}, {cat2}: {n2}, {cat3}: {n3}."
    with as many entries as are given, at most three. *)
Definition decimal (n : nat) : string :=
  NilZero.string_of_uint (Nat.to_uint n).

Definition entry_text (kv : string * nat) : string :=
  fst kv ++ ": " ++ decimal (snd kv).

Definition issues_text (entries : list (string * nat)) : option string :=
  match entries with
  | [e1] => Some ("Most frequent issues: " ++ entry_text e1 ++ ".")
  | [e1; e2] =>
      Some ("Most frequent issues: " ++ entry_text e1 ++ ", "
              ++ entry_text e2 ++ ".")
  | [e1; e2; e3] =>
      Some ("Most frequent issues: " ++ entry_text e1 ++ ", "
              ++ entry_text e2 ++ ", " ++ entry_text e3 ++ ".")
  | _ => None
  end.

(** The whole summary of a request of [n] items whose second line is
    [line]. *)
Definition summary_text (n : nat) (line : string) : string :=
  "Analyzed " ++ decimal n ++ " feedback item(s)." ++ " " ++ line ++ " "
    ++ "Recommended actions: tighten instruction following, prefer concise answers, and ask clarifying questions when intent is ambiguous.".

(** In [text], an occurrence of [x] stands before an occurrence of [y]. *)
Definition Precedes (text x y : string) : Prop :=
  exists pre mid post, text = pre ++ x ++ mid ++ y ++ post.

(** An item with the given category and nothing else of interest. *)
Definition item_of_category (c : string) : FeedbackOut :=
  {| id := "0"; question := "q"; response_ := "r"; improvement := "i";
     category := c; severity := Some "medium"; created_at := None |}.

Definition tone_tone_accuracy : InsightRequest :=
  {| items := map item_of_category ["tone"; "tone"; "accuracy"];
     scope := "all" |}.

(** Two categories of two items each, "b" seen first. *)
Definition tied_request : InsightRequest :=
  {| items := map item_of_category ["b"; "a"; "a"; "b"]; scope := "week" |}.

(** The same items in another order, "a" seen first. *)
Definition tied_request_reordered : InsightRequest :=
  {| items := map item_of_category ["a"; "b"; "b"; "a"]; scope := "week" |}.

(** The label under which the breakdown files a group. *)
Definition label (group_id : value) : value := py_or group_id (VStr "Unknown").

(** The category a stored document is grouped by. *)
Definition category_of (doc : document) : value := field_path doc "category".

(** ** Example states *)

Definition noon : datetime :=
  {| date_part := "2024-01-01"; time_part := "12:00:00" |}.

(** An application whose store holds the given feedback collection. *)
Definition app_with (handle : option string) (coll : list document) : App :=
  {| db := handle;
     store := {| collections := [("feedback", coll)];
                 next_oid := List.length coll;
                 clock := noon;
                 fault := None |} |}.

(** A stored record with the given value in its [category] field. *)
Definition stored (oid : string) (cat : value) : document :=
  [("question", VStr "q"); ("response", VStr "r"); ("improvement", VStr "i");
   ("category", cat); ("severity", VStr "medium");
   ("created_at", VDatetime noon); ("_id", VObjectId oid)].

Definition a_payload : FeedbackCreate :=
  {| fc_question := "q"; fc_response := "r"; fc_improvement := "i";
     fc_category := "tone"; fc_severity := Some "medium" |}.

(** A raw item whose [category] is the given JSON field. *)
Definition raw_item (cat : json_field) : RawFeedbackOut :=
  {| raw_id := JStr "0"; raw_question := JStr "q"; raw_response := JStr "r";
     raw_improvement := JStr "i"; raw_category := cat;
     raw_severity := Missing; raw_created_at := Missing |}.

(* ================================================================== *)
(** * The diagnostic endpoint: [GET /test] *)

(** The environment variables the endpoint reads; [None] is an unset
    variable. *)
Record Environ : Type := {
  DATABASE_URL : option string;
  DATABASE_NAME : option string
}.

(** Truth value of [os.getenv(name)]: an unset or empty variable is
    false. *)
Definition env_truthy (o : option string) : bool := truthy (opt_str o).

(** Text is held as its UTF-8 bytes, as the literals of this file are:
    a character is a leading byte followed by its continuation bytes,
    those from 128 to 191. *)
Definition is_continuation (c : ascii) : bool :=
  (128 <=? nat_of_ascii c) && (nat_of_ascii c <? 192).

(** [len(s)]: the number of characters. *)
Fixpoint chars (s : string) : nat :=
  match s with
  | EmptyString => 0
  | String c s' => if is_continuation c then chars s' else S (chars s')
  end.

(** [s[:n]]: the first [n] characters of [s], each with all its bytes. *)
Fixpoint slice_to (n : nat) (s : string) : string :=
  match s with
  | EmptyString => EmptyString
  | String c s' =>
      if is_continuation c then String c (slice_to n s')
      else match n with
           | 0 => EmptyString
           | S n' => String c (slice_to n' s')
           end
  end.

(** [db.list_collection_names()]: the names of the collections, or the
    error of a store that is out of order. *)
Definition list_collection_names (st : Store) : string + list string :=
  match fault st with
  | Some e => inl e
  | None => inr (PyDict.keys (collections st))
  end.

(** The object the endpoint returns. *)
Record Diagnostic : Type := {
  backend : string;
  database : string;
  database_url : option string;
  database_name : option string;
  connection_status : string;
  diag_collections : list string
}.

Definition set_database (v : string) (r : Diagnostic) : Diagnostic :=
  {| backend := backend r; database := v; database_url := database_url r;
     database_name := database_name r;
     connection_status := connection_status r;
     diag_collections := diag_collections r |}.

Definition set_database_url (v : string) (r : Diagnostic) : Diagnostic :=
  {| backend := backend r; database := database r; database_url := Some v;
     database_name := database_name r;
     connection_status := connection_status r;
     diag_collections := diag_collections r |}.

Definition set_database_name (v : string) (r : Diagnostic) : Diagnostic :=
  {| backend := backend r; database := database r;
     database_url := database_url r; database_name := Some v;
     connection_status := connection_status r;
     diag_collections := diag_collections r |}.

Definition set_connection_status (v : string) (r : Diagnostic) : Diagnostic :=
  {| backend := backend r; database := database r;
     database_url := database_url r; database_name := database_name r;
     connection_status := v; diag_collections := diag_collections r |}.

Definition set_collections (v : list string) (r : Diagnostic) : Diagnostic :=
  {| backend := backend r; database := database r;
     database_url := database_url r; database_name := database_name r;
     connection_status := connection_status r; diag_collections := v |}.

(** [test_database()].  The handle [db] of the model is the name of the
    database, so [hasattr(db, 'name')] holds; nothing in the outer [try]
    raises outside the inner one, so its [except] branch is not taken. *)
Definition test_database (env : Environ) (app : App) : Diagnostic :=
  let response :=
    {| backend := "✅ Running";
       database := "❌ Not Available";
       database_url := None;
       database_name := None;
       connection_status := "Not Connected";
       diag_collections := [] |} in
  let response :=
    match db app with
    | Some name =>
        let response := set_database "✅ Available" response in
        let response := set_database_url "✅ Configured" response in
        let response := set_database_name name response in
        let response := set_connection_status "Connected" response in
        match list_collection_names (store app) with
        | inr collections =>
            let response := set_collections (firstn 10 collections) response in
            set_database "✅ Connected & Working" response
        | inl e =>
            set_database ("⚠️  Connected but Error: " ++ slice_to 50 e) response
        end
    | None => set_database "⚠️  Available but not initialized" response
    end in
  let response :=
    set_database_url
      (if env_truthy (DATABASE_URL env) then "✅ Set" else "❌ Not Set")
      response in
  let response :=
    set_database_name
      (if env_truthy (DATABASE_NAME env) then "✅ Set" else "❌ Not Set")
      response in
  response.

(** ** Vocabulary for serialized documents *)

(** The keys [_serialize] may write or delete. *)
Definition serialize_keys : list string :=
  ["_id"; "id"; "created_at"; "updated_at"].

Definition is_datetime (o : option value) : bool :=
  match o with
  | Some (VDatetime _) => true
  | _ => false
  end.

(** A document whose field holds nothing or a false value. *)
Definition falsy_or_missing (o : option value) : bool :=
  match o with
  | Some v => negb (truthy v)
  | None => true
  end.

(** The two steps of [_serialize]: the renaming of a true [_id] to
    [id], and the conversion of one timestamp field. *)
Definition rename_id (doc : document) : document :=
  match PyDict.get string_dec "_id" doc with
  | Some v =>
      if truthy v
      then PyDict.set string_dec "id" (VStr (py_str v))
             (PyDict.remove string_dec "_id" doc)
      else doc
  | None => doc
  end.

Definition isoformat_field (key : string) (doc : document) : document :=
  match PyDict.get string_dec key doc with
  | Some (VDatetime t) => PyDict.set string_dec key (VStr (isoformat t)) doc
  | _ => doc
  end.

(** What [_serialize] leaves in a timestamp field that held [o]. *)
Definition as_text (o : option value) : option value :=
  match o with
  | Some (VDatetime t) => Some (VStr (isoformat t))
  | _ => o
  end.

(** A raw item that the request model accepts: its five required
    fields hold strings, and [severity] and [created_at] are each absent,
    null or a string. *)
Definition is_str (f : json_field) : bool :=
  match f with JStr _ => true | _ => false end.

Definition is_str_or_nothing (f : json_field) : bool :=
  match f with JOther => false | _ => true end.

Definition item_accepted (raw : RawFeedbackOut) : bool :=
  is_str (raw_id raw) && is_str (raw_question raw)
  && is_str (raw_response raw) && is_str (raw_improvement raw)
  && is_str (raw_category raw)
  && is_str_or_nothing (raw_severity raw)
  && is_str_or_nothing (raw_created_at raw).

(** The raw items of a request, none when the key is absent. *)
Definition raw_items_or_empty (raw : RawInsightRequest) : list RawFeedbackOut :=
  match raw_items raw with Some raws => raws | None => [] end.

(** A request the model accepts: its items are accepted and [scope] is
    absent or a string. *)
Definition request_accepted (raw : RawInsightRequest) : bool :=
  forallb item_accepted (raw_items_or_empty raw)
  && match raw_scope raw with Missing | JStr _ => true | _ => false end.

(** A raw item with the given [category] and [severity]. *)
Definition raw_item_with (cat sev : json_field) : RawFeedbackOut :=
  {| raw_id := JStr "0"; raw_question := JStr "q"; raw_response := JStr "r";
     raw_improvement := JStr "i"; raw_category := cat;
     raw_severity := sev; raw_created_at := Null |}.

(** A validated item holds what the raw item held. *)
Definition item_agrees (raw : RawFeedbackOut) (it : FeedbackOut) : Prop :=
  raw_id raw = JStr (id it)
  /\ raw_question raw = JStr (question it)
  /\ raw_response raw = JStr (response_ it)
  /\ raw_improvement raw = JStr (improvement it)
  /\ raw_category raw = JStr (category it)
  /\ (raw_severity raw = Missing -> severity it = Some "medium")
  /\ (raw_severity raw = Null -> severity it = None)
  /\ (forall s, raw_severity raw = JStr s -> severity it = Some s).

(** A stored record with an update time as well. *)
Definition stored_updated (oid : string) (cat : value) : document :=
  (stored oid cat ++ [("updated_at", VDatetime noon)])%list.

(** [s * n] *)
Fixpoint repeat_text (n : nat) (s : string) : string :=
  match n with
  | 0 => ""
  | S n' => s ++ repeat_text n' s
  end.

(** A store that answers every operation with the given error. *)
Definition faulty_app (e : string) : App :=
  {| db := Some "db";
     store := {| collections := []; next_oid := 0; clock := noon;
                 fault := Some e |} |}.

(** An application over a store with the given collection names. *)
Definition app_with_collections (names : list string) : App :=
  {| db := Some "db";
     store := {| collections := map (fun n => (n, [])) names;
                 next_oid := 0; clock := noon; fault := None |} |}.

(* ================================================================== *)
(** * Facts about strings *)

Lemma append_assoc (a b c : string) : (a ++ b) ++ c = a ++ (b ++ c).
Proof. induction a as [|ch a IH]; simpl; [reflexivity | now rewrite IH]. Qed.

Lemma prefix_append (n s : string) : prefix n (n ++ s) = true.
Proof.
  induction n as [|ch n IH]; simpl.
  - now destruct s.
  - destruct (ascii_dec ch ch) as [_|F]; [exact IH | now elim F].
Qed.

Lemma prefix_split (n s : string) :
  prefix n s = true -> exists post, s = n ++ post.
Proof.
  revert s; induction n as [|ch n IH]; intros s H.
  - now exists s.
  - destruct s as [|c s]; simpl in H; [discriminate|].
    destruct (ascii_dec ch c) as [->|]; [|discriminate].
    destruct (IH _ H) as [post ->]. now exists post.
Qed.

Lemma containsb_unfold (n s : string) :
  containsb n s =
  prefix n s || match s with EmptyString => false | String _ s' => containsb n s' end.
Proof. now destruct s. Qed.

Lemma containsb_here (n s : string) : containsb n (n ++ s) = true.
Proof. rewrite containsb_unfold, prefix_append. reflexivity. Qed.

Lemma containsb_skip (pre n s : string) :
  containsb n s = true -> containsb n (pre ++ s) = true.
Proof.
  intros H; induction pre as [|ch pre IH]; simpl; [exact H|].
  rewrite IH. apply orb_true_r.
Qed.

Lemma containsb_Contains (hay needle : string) :
  containsb needle hay = true <-> Contains hay needle.
Proof.
  split.
  - induction hay as [|ch hay IH]; intros H.
    + rewrite containsb_unfold, orb_false_r in H.
      destruct (prefix_split _ _ H) as [post E].
      now exists "", post.
    + rewrite containsb_unfold in H. apply orb_true_iff in H as [H|H].
      * destruct (prefix_split _ _ H) as [post E]. now exists "", post.
      * destruct (IH H) as (pre & post & E).
        exists (String ch pre), post. simpl. now rewrite E.
  - intros (pre & post & ->). apply containsb_skip, containsb_here.
Qed.

(* ================================================================== *)
(** * Facts about dictionaries *)

Section DictFacts.
Variables K V : Type.
Variable K_eq_dec : forall a b : K, {a = b} + {a <> b}.

Local Abbreviation get := (PyDict.get K_eq_dec).
Local Abbreviation set := (PyDict.set K_eq_dec).
Local Abbreviation keys := (@PyDict.keys K V).

Lemma get_set_same (k : K) (v : V) (d : dict K V) :
  get k (set k v d) = Some v.
Proof.
  induction d as [|[k' v'] d IH]; simpl.
  - destruct (K_eq_dec k k); congruence.
  - destruct (K_eq_dec k k') as [E|N]; simpl.
    + destruct (K_eq_dec k k); congruence.
    + destruct (K_eq_dec k k'); congruence.
Qed.

Lemma get_set_other (k k0 : K) (v : V) (d : dict K V) :
  k0 <> k -> get k0 (set k v d) = get k0 d.
Proof.
  intros N; induction d as [|[k' v'] d IH]; simpl.
  - destruct (K_eq_dec k0 k); congruence.
  - destruct (K_eq_dec k k') as [E|N']; simpl.
    + subst k'. destruct (K_eq_dec k0 k); congruence.
    + destruct (K_eq_dec k0 k'); congruence.
Qed.

Lemma get_None_keys (k : K) (d : dict K V) :
  get k d = None <-> ~ In k (keys d).
Proof.
  induction d as [|[k' v'] d IH]; simpl.
  - tauto.
  - destruct (K_eq_dec k k') as [E|N].
    + split; [discriminate | intros H; elim H; auto].
    + rewrite IH. split; [intros H [E|I]; [congruence | tauto] | tauto].
Qed.

Lemma get_Some_In (k : K) (v : V) (d : dict K V) :
  get k d = Some v -> In (k, v) d.
Proof.
  induction d as [|[k' v'] d IH]; simpl; [discriminate|].
  destruct (K_eq_dec k k') as [E|N].
  - intros [= ->]. subst. now left.
  - intros H. right. auto.
Qed.

Lemma In_get_Some (k : K) (v : V) (d : dict K V) :
  NoDup (keys d) -> In (k, v) d -> get k d = Some v.
Proof.
  induction d as [|[k' v'] d IH]; simpl; [tauto|].
  intros ND [E|I].
  - injection E as -> ->. destruct (K_eq_dec k k); congruence.
  - inversion ND as [|? ? NI ND']; subst.
    destruct (K_eq_dec k k') as [E|N].
    + subst k'. elim NI. change k with (fst (k, v)). now apply in_map.
    + auto.
Qed.

Lemma keys_set_present (k : K) (v : V) (d : dict K V) :
  In k (keys d) -> keys (set k v d) = keys d.
Proof.
  induction d as [|[k' v'] d IH]; simpl; [tauto|].
  destruct (K_eq_dec k k') as [E|N]; simpl.
  - now subst.
  - intros [E|I]; [congruence|]. now rewrite IH.
Qed.

Lemma set_absent (k : K) (v : V) (d : dict K V) :
  ~ In k (keys d) -> set k v d = (d ++ [(k, v)])%list.
Proof.
  induction d as [|[k' v'] d IH]; simpl; [reflexivity|].
  intros NI. destruct (K_eq_dec k k') as [E|N].
  - elim NI; auto.
  - rewrite IH; tauto.
Qed.

Lemma keys_set_absent (k : K) (v : V) (d : dict K V) :
  ~ In k (keys d) -> keys (set k v d) = (keys d ++ [k])%list.
Proof.
  intros NI. rewrite set_absent by assumption.
  unfold PyDict.keys. now rewrite map_app.
Qed.

Lemma In_keys_set (k k0 : K) (v : V) (d : dict K V) :
  In k0 (keys (set k v d)) <-> k0 = k \/ In k0 (keys d).
Proof.
  destruct (in_dec K_eq_dec k (keys d)) as [I|NI].
  - rewrite keys_set_present by assumption.
    split; [tauto | intros [->|]; assumption].
  - rewrite keys_set_absent by assumption.
    rewrite in_app_iff; simpl. split; intros H; intuition congruence.
Qed.

Lemma NoDup_keys_set (k : K) (v : V) (d : dict K V) :
  NoDup (keys d) -> NoDup (keys (set k v d)).
Proof.
  intros ND. destruct (in_dec K_eq_dec k (keys d)) as [I|NI].
  - now rewrite keys_set_present.
  - rewrite keys_set_absent by assumption.
    apply NoDup_rev in ND. rewrite <- (rev_involutive (keys d ++ [k])).
    apply NoDup_rev. rewrite rev_app_distr; simpl.
    constructor; [now rewrite <- in_rev | assumption].
Qed.
End DictFacts.

(* ================================================================== *)
(** * Facts about counting by key *)

Section TallyFacts.
Variables A K : Type.
Variable K_eq_dec : forall a b : K, {a = b} + {a <> b}.
Variable key : A -> K.

Local Abbreviation get := (PyDict.get K_eq_dec).
Local Abbreviation set := (PyDict.set K_eq_dec).
Local Abbreviation counts := (tally K_eq_dec key).
Local Abbreviation occ := (occurrences K_eq_dec key).
Local Abbreviation index_of := (index_of K_eq_dec).

Lemma tally_snoc (l : list A) (x : A) :
  counts (l ++ [x]) =
  set (key x) (PyDict.get_default K_eq_dec (key x) 0 (counts l) + 1) (counts l).
Proof. unfold tally. now rewrite fold_left_app. Qed.

Lemma occ_snoc (k : K) (l : list A) (x : A) :
  occ k (l ++ [x]) = occ k l + (if K_eq_dec (key x) k then 1 else 0).
Proof.
  unfold occurrences. rewrite map_app, count_occ_app. simpl.
  destruct (K_eq_dec (key x) k); reflexivity.
Qed.

(** Every key is filed with the number of its occurrences, and a key
    that does not occur is not filed. *)
Lemma get_tally (k : K) (l : list A) :
  get k (counts l) = if occ k l =? 0 then None else Some (occ k l).
Proof.
  induction l as [|x l IH] using rev_ind; [reflexivity|].
  rewrite tally_snoc, occ_snoc.
  destruct (K_eq_dec (key x) k) as [E|N].
  - subst k. rewrite get_set_same. unfold PyDict.get_default. rewrite IH.
    destruct (occ (key x) l) as [|n] eqn:E; simpl.
    + reflexivity.
    + replace (n + 1 =? 0) with false by (symmetry; apply Nat.eqb_neq; lia).
      reflexivity.
  - rewrite get_set_other by congruence. rewrite IH, Nat.add_0_r. reflexivity.
Qed.

Lemma occ_pos_In (k : K) (l : list A) : 0 < occ k l <-> In k (map key l).
Proof. unfold occurrences. symmetry. apply count_occ_In. Qed.

Lemma In_keys_tally (k : K) (l : list A) :
  In k (PyDict.keys (counts l)) <-> In k (map key l).
Proof.
  rewrite <- occ_pos_In.
  destruct (in_dec K_eq_dec k (PyDict.keys (counts l))) as [I|NI].
  - split; [intros _|tauto].
    destruct (get k (counts l)) eqn:G.
    + rewrite get_tally in G. destruct (occ k l); [discriminate | lia].
    + apply get_None_keys in G. tauto.
  - split; [tauto|]. intros P. apply (get_None_keys K_eq_dec) in NI.
    rewrite get_tally in NI. destruct (occ k l); [lia | discriminate].
Qed.

Lemma NoDup_keys_tally (l : list A) : NoDup (PyDict.keys (counts l)).
Proof.
  induction l as [|x l IH] using rev_ind; [constructor|].
  rewrite tally_snoc. now apply NoDup_keys_set.
Qed.

Lemma In_tally (k : K) (n : nat) (l : list A) :
  In (k, n) (counts l) <-> n = occ k l /\ 0 < n.
Proof.
  split.
  - intros I. apply In_get_Some with (K_eq_dec := K_eq_dec) in I;
      [|apply NoDup_keys_tally].
    rewrite get_tally in I. destruct (occ k l); simpl in I; [discriminate|].
    injection I as <-. lia.
  - intros [-> P]. apply get_Some_In with (K_eq_dec := K_eq_dec).
    rewrite get_tally. destruct (occ k l); [lia | reflexivity].
Qed.

Lemma index_of_app_In (k x : K) (l : list K) :
  In k l -> index_of k (l ++ [x]) = index_of k l.
Proof.
  induction l as [|y l IH]; simpl; [tauto|].
  destruct (K_eq_dec k y) as [E|N]; [reflexivity|].
  intros [E|I]; [congruence | now rewrite IH].
Qed.

Lemma index_of_lt_In (k : K) (l : list K) :
  In k l -> index_of k l < List.length l.
Proof.
  induction l as [|y l IH]; simpl; [tauto|].
  destruct (K_eq_dec k y) as [E|N]; [lia|].
  intros [E|I]; [congruence|]. specialize (IH I). lia.
Qed.

Lemma index_of_snoc_new (k : K) (l : list K) :
  ~ In k l -> index_of k (l ++ [k]) = List.length l.
Proof.
  induction l as [|y l IH]; simpl.
  - intros _. destruct (K_eq_dec k k); congruence.
  - intros NI. destruct (K_eq_dec k y) as [E|N]; [elim NI; auto|].
    rewrite IH; tauto.
Qed.

(** The dictionary lists its keys in the order of their first
    occurrence. *)
Lemma tally_first_occurrence_order (l : list A) :
  StronglySorted
    (fun a b => index_of a (map key l) < index_of b (map key l))
    (PyDict.keys (counts l)).
Proof.
  induction l as [|x l IH] using rev_ind; [constructor|].
  rewrite tally_snoc, map_app; simpl.
  assert (T : forall ks,
    (forall k, In k ks -> In k (map key l)) ->
    StronglySorted
      (fun a b => index_of a (map key l) < index_of b (map key l)) ks ->
    StronglySorted
      (fun a b => index_of a (map key l ++ [key x])
                  < index_of b (map key l ++ [key x])) ks).
  { induction ks as [|k ks IHks]; intros Sub SS; [constructor|].
    inversion SS as [|? ? SS' F]; subst. constructor.
    - apply IHks; [intros; apply Sub; now right | assumption].
    - rewrite Forall_forall in *. intros b Ib.
      rewrite !index_of_app_In by (apply Sub; simpl; auto).
      now apply F. }
  assert (Sub : forall k, In k (PyDict.keys (counts l)) -> In k (map key l))
    by (intros k; apply In_keys_tally).
  destruct (in_dec K_eq_dec (key x) (PyDict.keys (counts l))) as [I|NI].
  - rewrite keys_set_present by assumption. now apply T.
  - rewrite keys_set_absent by assumption.
    specialize (T _ Sub IH). revert T Sub.
    generalize (PyDict.keys (counts l)) as ks.
    induction ks as [|k ks IHks]; intros SS Sub'; simpl.
    + repeat constructor.
    + inversion SS as [|? ? SS' F]; subst. constructor.
      * apply IHks; [assumption | intros; apply Sub'; now right].
      * apply Forall_app; split; [assumption|].
        constructor; [|constructor].
        rewrite index_of_app_In by (apply Sub'; now left).
        rewrite index_of_snoc_new
          by (intros H; apply NI; now apply In_keys_tally).
        apply index_of_lt_In, Sub'. now left.
Qed.
End TallyFacts.

(* ================================================================== *)
(** * Facts about sorting *)

Section SortFacts.
Variable K : Type.

Lemma StronglySorted_impl (A : Type) (R R' : A -> A -> Prop) (l : list A) :
  (forall a b, In a l -> In b l -> R a b -> R' a b) ->
  StronglySorted R l -> StronglySorted R' l.
Proof.
  induction l as [|x l IH]; intros Imp SS; [constructor|].
  inversion SS as [|? ? SS' F]; subst. constructor.
  - apply IH; [|assumption]. intros a b Ia Ib. apply Imp; now right.
  - rewrite Forall_forall in *. intros b Ib.
    apply Imp; [now left | now right | now apply F].
Qed.

Lemma StronglySorted_map (A B : Type) (f : A -> B) (R : B -> B -> Prop)
    (l : list A) :
  StronglySorted R (map f l) ->
  StronglySorted (fun a b => R (f a) (f b)) l.
Proof.
  induction l as [|x l IH]; simpl; intros SS; [constructor|].
  inversion SS as [|? ? SS' F]; subst. constructor; [auto|].
  rewrite Forall_forall in *. intros b Ib. apply F. now apply in_map.
Qed.

Lemma StronglySorted_nth (A : Type) (R : A -> A -> Prop) (l : list A) :
  StronglySorted R l ->
  forall i j a b, i < j ->
    nth_error l i = Some a -> nth_error l j = Some b -> R a b.
Proof.
  induction 1 as [|x l SS IH F]; intros i j a b Lt Hi Hj.
  - destruct i; discriminate.
  - destruct j as [|j]; [lia|]. simpl in Hj. destruct i as [|i]; simpl in Hi.
    + injection Hi as ->. rewrite Forall_forall in F.
      apply F. eapply nth_error_In; eassumption.
    + apply (IH i j); [lia | assumption | assumption].
Qed.

Lemma insert_desc_perm (x : K * nat) (l : list (K * nat)) :
  Permutation (insert_desc x l) (x :: l).
Proof.
  induction l as [|y l IH]; simpl; [reflexivity|].
  destruct (snd x <? snd y); [|reflexivity].
  rewrite IH. apply perm_swap.
Qed.

Lemma sorted_perm (l : list (K * nat)) :
  Permutation (sorted_by_count_desc l) l.
Proof.
  induction l as [|x l IH]; simpl; [reflexivity|].
  rewrite insert_desc_perm. now constructor.
Qed.

Variable R : K -> K -> Prop.

Lemma insert_desc_ranked (x : K * nat) (s : list (K * nat)) :
  StronglySorted (ranked R) s ->
  Forall (fun y => R (fst x) (fst y)) s ->
  StronglySorted (ranked R) (insert_desc x s).
Proof.
  induction s as [|y s IH]; simpl; intros SS F.
  - repeat constructor.
  - inversion SS as [|? ? SS' Fy]; subst.
    inversion F as [|? ? Rxy F']; subst.
    destruct (snd x <? snd y) eqn:C.
    + apply Nat.ltb_lt in C. constructor; [now apply IH|].
      rewrite Forall_forall in *. intros z Iz.
      apply (Permutation_in _ (insert_desc_perm x s)) in Iz.
      destruct Iz as [<-|Iz]; [now left | now apply Fy].
    + apply Nat.ltb_ge in C. constructor; [assumption|].
      constructor.
      * unfold ranked. destruct (Nat.eq_dec (snd x) (snd y)); [right|left]; auto; lia.
      * rewrite Forall_forall in *. intros z Iz.
        specialize (Fy z Iz). specialize (F' z Iz).
        unfold ranked in *.
        destruct (Nat.eq_dec (snd x) (snd z)); [right; auto | left; lia].
Qed.

(** The sort is stable: elements in [R]-order with equal counts stay
    in that order. *)
Lemma sorted_ranked (l : list (K * nat)) :
  StronglySorted (fun a b => R (fst a) (fst b)) l ->
  StronglySorted (ranked R) (sorted_by_count_desc l).
Proof.
  induction 1 as [|x l SS IH F]; simpl; [constructor|].
  apply insert_desc_ranked; [assumption|].
  rewrite Forall_forall in *. intros y Iy. apply F.
  now apply (Permutation_in _ (sorted_perm l)).
Qed.
End SortFacts.

Lemma sorted_count_desc (K : Type) (l : list (K * nat)) :
  StronglySorted (@count_desc K) (sorted_by_count_desc l).
Proof.
  apply StronglySorted_impl with (R := ranked (fun _ _ : K => True)).
  - unfold ranked, count_desc. intros a b _ _ [H|[H _]]; lia.
  - apply sorted_ranked. induction l; constructor; auto.
    rewrite Forall_forall; auto.
Qed.

(** * Facts about sums *)

Lemma sum_perm (a b : list nat) : Permutation a b -> sum a = sum b.
Proof. induction 1; simpl; lia. Qed.

Section SumFacts.
Variable K : Type.
Variable K_eq_dec : forall a b : K, {a = b} + {a <> b}.

Lemma sum_values_set (k : K) (v : nat) (d : dict K nat) :
  sum (PyDict.values (PyDict.set K_eq_dec k v d))
    + PyDict.get_default K_eq_dec k 0 d
  = sum (PyDict.values d) + v.
Proof.
  unfold PyDict.get_default.
  induction d as [|[k' v'] d IH]; simpl; [lia|].
  destruct (K_eq_dec k k') as [E|N]; simpl; [lia|].
  fold (PyDict.values (PyDict.set K_eq_dec k v d)).
  fold (PyDict.values d). lia.
Qed.

Lemma sum_values_tally (A : Type) (key : A -> K) (l : list A) :
  sum (PyDict.values (tally K_eq_dec key l)) = List.length l.
Proof.
  induction l as [|x l IH] using rev_ind; [reflexivity|].
  rewrite tally_snoc, length_app; simpl.
  pose proof (sum_values_set (key x)
    (PyDict.get_default K_eq_dec (key x) 0 (tally K_eq_dec key l) + 1)
    (tally K_eq_dec key l)).
  lia.
Qed.
End SumFacts.

(* ================================================================== *)
(** * Facts about the ranking of the summarizer *)

Lemma count_categories_tally (its : list FeedbackOut) :
  count_categories its = tally string_dec category its.
Proof. reflexivity. Qed.

Lemma top_perm (its : list FeedbackOut) :
  Permutation (top_categories its) (count_categories its).
Proof. apply sorted_perm. Qed.

Lemma In_top (its : list FeedbackOut) (k : string) (n : nat) :
  In (k, n) (top_categories its) <-> n = item_count its k /\ 0 < n.
Proof.
  rewrite <- (In_tally string_dec category k n its).
  rewrite <- count_categories_tally.
  split; apply Permutation_in; [|symmetry]; apply top_perm.
Qed.

Lemma top_keys_perm (its : list FeedbackOut) :
  Permutation (map fst (top_categories its))
    (PyDict.keys (count_categories its)).
Proof. apply Permutation_map, top_perm. Qed.

Lemma NoDup_top_keys (its : list FeedbackOut) :
  NoDup (map fst (top_categories its)).
Proof.
  apply Permutation_NoDup with (l := PyDict.keys (count_categories its)).
  - symmetry. apply top_keys_perm.
  - apply NoDup_keys_tally.
Qed.

Lemma In_top_keys (its : list FeedbackOut) (k : string) :
  In k (map fst (top_categories its)) <-> In k (map category its).
Proof.
  rewrite <- (In_keys_tally string_dec category k its).
  rewrite <- count_categories_tally.
  split; apply Permutation_in; [|symmetry]; apply top_keys_perm.
Qed.

Lemma length_top (its : list FeedbackOut) :
  List.length (top_categories its) = List.length (distinct_categories its).
Proof.
  rewrite <- (length_map fst). apply Permutation_length.
  apply NoDup_Permutation.
  - apply NoDup_top_keys.
  - apply NoDup_nodup.
  - intros k. unfold distinct_categories.
    rewrite nodup_In. apply In_top_keys.
Qed.

Lemma top_count_desc (its : list FeedbackOut) :
  StronglySorted (@count_desc string) (top_categories its).
Proof. apply sorted_count_desc. Qed.

Lemma top_ranked (its : list FeedbackOut) :
  StronglySorted (ranked (fun a b => first_seen its a < first_seen its b))
    (top_categories its).
Proof.
  apply sorted_ranked.
  apply StronglySorted_map with (f := fst)
    (R := fun a b => first_seen its a < first_seen its b).
  apply (tally_first_occurrence_order string_dec category its).
Qed.

Lemma top_nonempty (its : list FeedbackOut) :
  its <> [] -> top_categories its <> [].
Proof.
  destruct its as [|it its]; [congruence|]. intros _ E.
  assert (I : In (category it) (map fst (top_categories (it :: its))))
    by (apply In_top_keys; now left).
  rewrite E in I. exact I.
Qed.

(** The three lines of the summary of a request that has items. *)
Lemma summary_nonempty (req : InsightRequest) :
  items req <> [] ->
  generate_ai_insights_summary req =
  analyzed_line (List.length (items req)) ++ " "
    ++ issues_line (top_categories (items req)) ++ " " ++ recommendation.
Proof.
  intros NE. unfold generate_ai_insights_summary, summary_lines.
  pose proof (top_nonempty NE) as TN.
  destruct (top_categories (items req)) as [|e top] eqn:ET; [congruence|].
  destruct (items req) as [|it its]; [congruence|].
  reflexivity.
Qed.

Lemma StronglySorted_app_inv (A : Type) (R : A -> A -> Prop) (l1 l2 : list A) :
  StronglySorted R (l1 ++ l2) ->
  StronglySorted R l1 /\ forall a b, In a l1 -> In b l2 -> R a b.
Proof.
  induction l1 as [|x l1 IH]; simpl; intros SS.
  - split; [constructor | intros ? ? []].
  - inversion SS as [|? ? SS' F]; subst. destruct (IH SS') as [S1 C].
    rewrite Forall_forall in F. split.
    + constructor; [assumption|]. rewrite Forall_forall. intros b Ib.
      apply F, in_or_app. now left.
    + intros a b [<-|Ia] Ib; [apply F, in_or_app; now right | now apply C].
Qed.

Lemma In_listed_top (its : list FeedbackOut) (e : string * nat) :
  In e (listed its) -> In e (top_categories its).
Proof.
  intros I. rewrite <- (firstn_skipn 3 (top_categories its)).
  apply in_or_app. now left.
Qed.

Lemma tally_by_keys (A K : Type) (K_eq_dec : forall a b : K, {a = b} + {a <> b})
    (key : A -> K) (l : list A) :
  tally K_eq_dec key l = tally K_eq_dec (fun k => k) (map key l).
Proof.
  unfold tally. generalize (@nil (K * nat)) as d.
  induction l as [|x l IH]; intros d; simpl; [reflexivity | apply IH].
Qed.

(** The summary reads nothing of the request but the sequence of the
    items' categories. *)
Lemma summary_by_categories (r1 r2 : InsightRequest) :
  map category (items r1) = map category (items r2) ->
  top_categories (items r1) = top_categories (items r2)
  /\ List.length (items r1) = List.length (items r2)
  /\ generate_ai_insights_summary r1 = generate_ai_insights_summary r2.
Proof.
  intros E.
  assert (T : top_categories (items r1) = top_categories (items r2)).
  { unfold top_categories, PyDict.items.
    rewrite !count_categories_tally, !(tally_by_keys string_dec category).
    now rewrite E. }
  assert (N : List.length (items r1) = List.length (items r2)).
  { rewrite <- (length_map category (items r1)), E. apply length_map. }
  repeat split; try assumption.
  unfold generate_ai_insights_summary, summary_lines. now rewrite T, N.
Qed.

(** ** The rendered text *)

Lemma issues_line_text (top : list (string * nat)) (line : string) :
  issues_text (firstn 3 top) = Some line -> issues_line top = line.
Proof.
  unfold issues_line, head_of.
  destruct (firstn 3 top) as [|e1 [|e2 [|e3 [|e4 l]]]];
    cbn [issues_text map join]; intros E; try discriminate;
    injection E as <-; unfold fmt_entry, str_of_nat, entry_text, decimal;
    rewrite !append_assoc; reflexivity.
Qed.

Lemma issues_text_defined (l : list (string * nat)) :
  l <> [] -> List.length l <= 3 -> exists line, issues_text l = Some line.
Proof.
  destruct l as [|e1 [|e2 [|e3 [|e4 l]]]]; simpl; intros NE L;
    try congruence; try lia; eauto.
Qed.

(** The summary of a request that has items, in the words of the
    specification. *)
Lemma summary_in_words (req : InsightRequest) :
  items req <> [] ->
  exists line,
    issues_text (listed (items req)) = Some line
    /\ generate_ai_insights_summary req
       = summary_text (List.length (items req)) line.
Proof.
  intros NE.
  destruct (issues_text_defined (l := listed (items req))) as [line E].
  - unfold listed. pose proof (top_nonempty NE) as TN.
    destruct (top_categories (items req)); [congruence | discriminate].
  - unfold listed. rewrite length_firstn. lia.
  - exists line. split; [exact E|].
    rewrite (summary_nonempty req NE), (issues_line_text _ E).
    unfold analyzed_line, summary_text, str_of_nat, decimal, recommendation.
    rewrite !append_assoc. reflexivity.
Qed.

Lemma Contains_in_summary_text (n : nat) (line : string) :
  Contains (summary_text n line) line.
Proof.
  unfold summary_text.
  exists ("Analyzed " ++ decimal n ++ " feedback item(s)." ++ " "),
    (" " ++ "Recommended actions: tighten instruction following, prefer concise answers, and ask clarifying questions when intent is ambiguous.").
  rewrite !append_assoc. reflexivity.
Qed.

Lemma issues_text_precedes (l : list (string * nat)) (line : string)
    (i j : nat) (x y : string * nat) :
  issues_text l = Some line -> i < j ->
  nth_error l i = Some x -> nth_error l j = Some y ->
  Precedes line (entry_text x) (entry_text y).
Proof.
  unfold Precedes.
  destruct l as [|e1 [|e2 [|e3 [|e4 l]]]]; simpl; intros E Lt Hi Hj;
    try discriminate; injection E as <-.
  - destruct i, j; try lia; destruct j; discriminate.
  - destruct i as [|[|i]], j as [|[|j]]; simpl in *; try lia; try discriminate;
      try (destruct i; discriminate); try (destruct j; discriminate).
    injection Hi as <-. injection Hj as <-.
    exists "Most frequent issues: ", ", ", ".". reflexivity.
  - destruct i as [|[|[|i]]], j as [|[|[|j]]]; simpl in *; try lia;
      try discriminate; try (destruct i; discriminate);
      try (destruct j; discriminate);
      injection Hi as <-; injection Hj as <-.
    + exists "Most frequent issues: ", ", ", (", " ++ entry_text e3 ++ ".").
      reflexivity.
    + exists "Most frequent issues: ", (", " ++ entry_text e2 ++ ", "), ".".
      rewrite !append_assoc. reflexivity.
    + exists ("Most frequent issues: " ++ entry_text e1 ++ ", "), ", ", ".".
      rewrite !append_assoc. reflexivity.
Qed.

(* ================================================================== *)
(** * The insights summarizer: theorems *)

(** C3. For a request with at least one item the summary is
    "Analyzed N feedback item(s). Most frequent issues: k1: n1, ... . "
    followed by the recommendation, where the entries "k: n" of the
    second line, written out with the category and its count in decimal,
    are ranked by descending count, carry the count of their category
    over the items, are the categories of highest count, are pairwise
    distinct, and number three, or as many as there are distinct
    categories when there are fewer; for a request without items the line
    is absent. *)
Theorem most_frequent_issues_line (req : InsightRequest) :
  let its := items req in
  let out := generate_ai_insights_summary req in
  (its <> [] ->
     (exists line,
        issues_text (listed its) = Some line
        /\ out = summary_text (List.length its) line
        /\ generate_ai_insights req
           = OK [("summary", summary_text (List.length its) line)]
        /\ Contains out line)
     /\ Contains out
          ("Most frequent issues: " ++ join ", " (map fmt_entry (listed its)) ++ ".")
     /\ StronglySorted (@count_desc string) (listed its)
     /\ (forall k n, In (k, n) (listed its) -> n = item_count its k /\ 0 < n)
     /\ (forall k n k', In (k, n) (listed its) ->
           In k' (map category its) -> ~ In k' (map fst (listed its)) ->
           item_count its k' <= n)
     /\ NoDup (map fst (listed its))
     /\ List.length (listed its)
        = Nat.min 3 (List.length (distinct_categories its)))
  /\ (its = [] -> ~ Contains out "Most frequent issues:").
Proof.
  intros its out. split.
  - intros NE.
    pose proof (top_count_desc its) as SS.
    rewrite <- (firstn_skipn 3 (top_categories its)) in SS.
    apply StronglySorted_app_inv in SS as [SL Cross].
    split; [|split; [|split; [|split; [|split; [|split]]]]].
    + destruct (summary_in_words req NE) as (line & E & S).
      exists line. split; [exact E|]. split; [exact S|].
      split; [unfold generate_ai_insights; now rewrite S|].
      unfold out. rewrite S. apply Contains_in_summary_text.
    + exists (analyzed_line (List.length its) ++ " "), (" " ++ recommendation).
      unfold out. rewrite (summary_nonempty req NE).
      unfold issues_line, head_of, listed. fold its.
      now rewrite !append_assoc.
    + exact SL.
    + intros k n I. now apply In_listed_top, In_top in I.
    + intros k n k' Ik Ik' NL.
      assert (It : In (k', item_count its k') (top_categories its)).
      { apply In_top. split; [reflexivity|].
        now apply (occ_pos_In string_dec category). }
      rewrite <- (firstn_skipn 3 (top_categories its)) in It.
      apply in_app_or in It as [It|It].
      * elim NL. change k' with (fst (k', item_count its k')).
        now apply in_map.
      * apply (Cross _ _ Ik It).
    + unfold listed. rewrite <- firstn_map.
      pose proof (NoDup_top_keys its) as ND.
      rewrite <- (firstn_skipn 3 (map fst (top_categories its))) in ND.
      now apply NoDup_app_remove_r in ND.
    + unfold listed. now rewrite length_firstn, length_top.
  - intros E C. apply containsb_Contains in C.
    unfold out, generate_ai_insights_summary, summary_lines in C.
    fold its in C. rewrite E in C. vm_compute in C. discriminate.
Qed.

Lemma most_frequent_issues_line_witness :
  items tone_tone_accuracy <> []
  /\ (exists line,
        issues_text (listed (items tone_tone_accuracy)) = Some line
        /\ generate_ai_insights_summary tone_tone_accuracy
           = summary_text 3 line
        /\ generate_ai_insights tone_tone_accuracy
           = OK [("summary", summary_text 3 line)]
        /\ Contains (generate_ai_insights_summary tone_tone_accuracy) line)
  /\ issues_text (listed (items tone_tone_accuracy))
     = Some "Most frequent issues: tone: 2, accuracy: 1."
  /\ List.length (listed (items tone_tone_accuracy)) = 2.
Proof.
  split; [discriminate|].
  destruct (most_frequent_issues_line tone_tone_accuracy) as [H _].
  destruct (H ltac:(discriminate)) as (T & _ & _ & _ & _ & _ & L).
  split; [exact T|]. split; [reflexivity | exact L].
Defined.

(** C4. The handler has no failing path: it answers every request with
    a summary; for a request without items the summary is exactly
    "Analyzed 0 feedback item(s).", with neither a "Most frequent issues"
    line nor the recommendation. *)
Theorem insights_never_fail_and_empty_input :
  (forall req, generate_ai_insights req
               = OK [("summary", generate_ai_insights_summary req)])
  /\ (forall sc,
        generate_ai_insights {| items := []; scope := sc |}
        = OK [("summary", "Analyzed 0 feedback item(s).")])
  /\ ~ Contains "Analyzed 0 feedback item(s)." "Most frequent issues"
  /\ ~ Contains "Analyzed 0 feedback item(s)." recommendation.
Proof.
  repeat split.
  - intros C. apply containsb_Contains in C. vm_compute in C. discriminate.
  - intros C. apply containsb_Contains in C. vm_compute in C. discriminate.
Qed.

(** C5. For items whose categories are "tone", "tone", "accuracy" the
    summary reports 3 items, lists "tone: 2, accuracy: 1" and carries the
    fixed recommendation. *)
Theorem tone_tone_accuracy_summary (req : InsightRequest) :
  map category (items req) = ["tone"; "tone"; "accuracy"] ->
  List.length (items req) = 3
  /\ head_of (top_categories (items req)) = "tone: 2, accuracy: 1"
  /\ generate_ai_insights_summary req
     = "Analyzed 3 feedback item(s). Most frequent issues: tone: 2, accuracy: 1. "
         ++ recommendation
  /\ Contains (generate_ai_insights_summary req) recommendation.
Proof.
  intros E.
  destruct (summary_by_categories req tone_tone_accuracy E) as (T & N & S).
  rewrite T, N, S. repeat split.
  apply containsb_Contains. vm_compute. reflexivity.
Qed.

Lemma tone_tone_accuracy_summary_witness :
  map category (items tone_tone_accuracy) = ["tone"; "tone"; "accuracy"]
  /\ head_of (top_categories (items tone_tone_accuracy)) = "tone: 2, accuracy: 1".
Proof.
  split; [reflexivity|].
  exact (proj1 (proj2 (tone_tone_accuracy_summary tone_tone_accuracy eq_refl))).
Defined.

(** C6. The [scope] of a request has no effect on the answer: two
    requests with the same items and any two scopes get the same
    response, from the handler and from the route. *)
Theorem scope_has_no_effect :
  (forall its scope1 scope2,
     generate_ai_insights {| items := its; scope := scope1 |}
     = generate_ai_insights {| items := its; scope := scope2 |})
  /\ (forall raws scope1 scope2,
        post_insights {| raw_items := raws; raw_scope := JStr scope1 |}
        = post_insights {| raw_items := raws; raw_scope := JStr scope2 |}).
Proof.
  split.
  - reflexivity.
  - intros raws scope1 scope2. unfold post_insights, validate_InsightRequest.
    simpl. destruct raws as [raws|]; [destruct (validate_items raws)|];
      reflexivity.
Qed.

(** C10. The summary is a function of the sequence of the items'
    categories; and of two categories with the same count, the one first
    seen earlier in the request is listed first: whenever the later-seen
    one is on the "Most frequent issues" line of the returned summary,
    the entry of the earlier-seen one stands on that line before it. *)
Theorem deterministic_and_first_seen_breaks_ties :
  (forall r1 r2,
     map category (items r1) = map category (items r2) ->
     generate_ai_insights r1 = generate_ai_insights r2)
  /\ (forall req a b n j,
        let its := items req in
        nth_error (listed its) j = Some (b, n) ->
        item_count its a = n ->
        first_seen its a < first_seen its b ->
        (exists i, i < j /\ nth_error (listed its) i = Some (a, n))
        /\ exists line,
             issues_text (listed its) = Some line
             /\ generate_ai_insights req
                = OK [("summary", summary_text (List.length its) line)]
             /\ Precedes line (entry_text (a, n)) (entry_text (b, n))).
Proof.
  split.
  - intros r1 r2 E. unfold generate_ai_insights.
    now destruct (summary_by_categories r1 r2 E) as (_ & _ & ->).
  - intros req a b n j its Hj Ca Lt.
    assert (Ex : exists i, i < j /\ nth_error (listed its) i = Some (a, n)).
    { unfold listed in *. rewrite nth_error_firstn in Hj.
      destruct (j <? 3) eqn:J3; [|discriminate]. apply Nat.ltb_lt in J3.
      assert (Pn : 0 < n) by (apply nth_error_In, In_top in Hj; lia).
      assert (Ia : In (a, n) (top_categories its)) by (apply In_top; lia).
      apply In_nth_error in Ia as [i Hi].
      pose proof (top_ranked its) as SS.
      destruct (Nat.lt_trichotomy i j) as [L|[E|G]].
      + exists i. split; [assumption|]. rewrite nth_error_firstn.
        replace (i <? 3) with true by (symmetry; apply Nat.ltb_lt; lia).
        assumption.
      + subst i. rewrite Hi in Hj. injection Hj as ->. lia.
      + pose proof (StronglySorted_nth SS G Hj Hi) as [C|[_ C]];
          simpl in C; lia. }
    split; [exact Ex|]. destruct Ex as (i & Lij & Hi).
    assert (NE : items req <> []).
    { intros E. unfold its in Hj. rewrite E in Hj.
      destruct j; discriminate. }
    destruct (summary_in_words req NE) as (line & E & S).
    exists line. split; [exact E|].
    split; [unfold generate_ai_insights; now rewrite S|].
    exact (issues_text_precedes _ E Lij Hi Hj).
Qed.

Lemma deterministic_and_first_seen_breaks_ties_witness :
  nth_error (listed (items tied_request)) 1 = Some ("a", 2)
  /\ item_count (items tied_request) "b" = 2
  /\ first_seen (items tied_request) "b" < first_seen (items tied_request) "a"
  /\ (exists i, i < 1 /\ nth_error (listed (items tied_request)) i = Some ("b", 2))
  /\ generate_ai_insights tied_request
     = OK [("summary",
            summary_text 4 "Most frequent issues: b: 2, a: 2.")]
  /\ exists line,
       issues_text (listed (items tied_request)) = Some line
       /\ generate_ai_insights tied_request
          = OK [("summary", summary_text 4 line)]
       /\ Precedes line (entry_text ("b", 2)) (entry_text ("a", 2)).
Proof.
  split; [reflexivity|]. split; [reflexivity|].
  split; [apply Nat.lt_0_succ|].
  destruct (proj2 deterministic_and_first_seen_breaks_ties
              tied_request "b" "a" 2 1 eq_refl eq_refl (Nat.lt_0_succ 0))
    as [Ex T].
  split; [exact Ex|]. split; [reflexivity | exact T].
Defined.

(* ================================================================== *)
(** * Storage not configured *)

(** C9. When the handle [db] is [None], each of POST /api/feedback,
    GET /api/feedback and GET /api/analytics/summary answers with status
    500 and leaves the whole state, the store included, as it was: no
    record is persisted. *)
Theorem unconfigured_storage_gives_500 (app : App) (payload : FeedbackCreate)
    (limit : Z) (cat : option string) :
  db app = None ->
  create_feedback app payload
    = (HTTPException 500 "Database not configured", app)
  /\ list_feedback app limit cat
    = (HTTPException 500 "Database not configured", app)
  /\ analytics_summary app
    = (HTTPException 500 "Database not configured", app)
  /\ store (snd (create_feedback app payload)) = store app
  /\ store (snd (list_feedback app limit cat)) = store app
  /\ store (snd (analytics_summary app)) = store app.
Proof.
  intros H. unfold create_feedback, list_feedback, analytics_summary.
  rewrite H. repeat split.
Qed.

Lemma unconfigured_storage_gives_500_witness :
  db (app_with None [stored "0" (VStr "tone")]) = None
  /\ create_feedback (app_with None [stored "0" (VStr "tone")]) a_payload
     = (HTTPException 500 "Database not configured",
        app_with None [stored "0" (VStr "tone")]).
Proof.
  split; [reflexivity|].
  exact (proj1 (unconfigured_storage_gives_500
                  (app_with None [stored "0" (VStr "tone")])
                  a_payload 50%Z None eq_refl)).
Defined.

(* ================================================================== *)
(** * Facts about the listing *)

Lemma get_remove_other (K V : Type)
    (K_eq_dec : forall a b : K, {a = b} + {a <> b})
    (k k0 : K) (d : dict K V) :
  k0 <> k ->
  PyDict.get K_eq_dec k0 (PyDict.remove K_eq_dec k d) = PyDict.get K_eq_dec k0 d.
Proof.
  intros N; induction d as [|[k' v'] d IH]; simpl; [reflexivity|].
  destruct (K_eq_dec k k') as [E|N']; simpl.
  - subst k'. destruct (K_eq_dec k0 k); congruence.
  - destruct (K_eq_dec k0 k'); congruence.
Qed.

(** Serialization leaves the [category] field alone. *)
Lemma serialize_category (doc : document) :
  PyDict.get string_dec "category" (_serialize doc)
  = PyDict.get string_dec "category" doc.
Proof.
  unfold _serialize. simpl fold_left.
  set (doc1 := match PyDict.get string_dec "_id" doc with
               | Some v => if truthy v
                           then PyDict.set string_dec "id" (VStr (py_str v))
                                  (PyDict.remove string_dec "_id" doc)
                           else doc
               | None => doc
               end).
  assert (E1 : PyDict.get string_dec "category" doc1
               = PyDict.get string_dec "category" doc).
  { unfold doc1. destruct (PyDict.get string_dec "_id" doc) as [v|];
      [destruct (truthy v)|]; try reflexivity.
    rewrite get_set_other, get_remove_other; [reflexivity | |]; discriminate. }
  set (doc2 := match PyDict.get string_dec "created_at" doc1 with
               | Some (VDatetime t) =>
                   PyDict.set string_dec "created_at" (VStr (isoformat t)) doc1
               | _ => doc1
               end).
  assert (E2 : PyDict.get string_dec "category" doc2
               = PyDict.get string_dec "category" doc1).
  { unfold doc2. destruct (PyDict.get string_dec "created_at" doc1) as [[| | |t]|];
      try reflexivity.
    rewrite get_set_other; [reflexivity | discriminate]. }
  destruct (PyDict.get string_dec "updated_at" doc2) as [[| | |t]|];
    try (now rewrite E2, E1).
  rewrite get_set_other; [now rewrite E2, E1 | discriminate].
Qed.

Lemma matches_category (X : value) (doc : document) :
  matches [("category", X)] doc = true ->
  PyDict.get string_dec "category" doc = Some X.
Proof.
  unfold matches; simpl.
  destruct (PyDict.get string_dec "category" doc) as [v|]; [|discriminate].
  destruct (value_eq_dec v X); [congruence | discriminate].
Qed.

Lemma In_firstn (A : Type) (n : nat) (l : list A) (x : A) :
  In x (firstn n l) -> In x l.
Proof.
  intros I. rewrite <- (firstn_skipn n l). apply in_or_app. now left.
Qed.

Lemma truthy_str (s : string) : truthy (VStr s) = true <-> s <> "".
Proof.
  simpl. destruct (String.eqb_spec s ""); simpl; split; congruence.
Qed.

(* ================================================================== *)
(** * GET /api/feedback with a category *)

(** C8, as stated, fails for the empty category string: the guard
    [if category:] installs no filter, and records of every category are
    returned. *)
Lemma empty_category_returns_other_categories :
  fst (list_feedback (app_with (Some "db") [stored "0" (VStr "tone")]) 50
         (Some ""))
  = OK [_serialize (stored "0" (VStr "tone"))]
  /\ PyDict.get string_dec "category" (_serialize (stored "0" (VStr "tone")))
     = Some (VStr "tone")
  /\ VStr "tone" <> VStr "".
Proof. repeat split. discriminate. Qed.

(** C8, amended. For every state and every non-empty category string
    [X], every record returned by GET /api/feedback?category=X holds
    exactly [X] in its [category] field, and the state is unchanged; an
    empty [X] is treated as an absent parameter. *)
Theorem category_filter_is_exact (app : App) (limit : Z) (X : string)
    (docs : list document) :
  X <> "" ->
  fst (list_feedback app limit (Some X)) = OK docs ->
  (forall doc, In doc docs ->
     PyDict.get string_dec "category" doc = Some (VStr X))
  /\ snd (list_feedback app limit (Some X)) = app
  /\ list_feedback app limit (Some "") = list_feedback app limit None.
Proof.
  intros NE R. unfold list_feedback in *.
  destruct (db app) as [h|] eqn:D; [|discriminate].
  change (opt_str (Some X)) with (VStr X) in *.
  rewrite (proj2 (truthy_str X) NE) in *.
  unfold get_documents in *. rewrite D in *.
  destruct (fault (store app)); simpl in R; [discriminate|].
  injection R as <-. repeat split.
  intros doc I. apply in_map_iff in I as (d & <- & I).
  rewrite serialize_category. apply In_firstn in I.
  apply filter_In in I as [_ M]. now apply matches_category.
Qed.

Lemma category_filter_is_exact_witness :
  "tone" <> ""
  /\ fst (list_feedback
            (app_with (Some "db")
               [stored "0" (VStr "tone"); stored "1" (VStr "Tone");
                stored "2" (VStr "tone of voice")])
            50 (Some "tone"))
     = OK [_serialize (stored "0" (VStr "tone"))]
  /\ forall doc, In doc [_serialize (stored "0" (VStr "tone"))] ->
       PyDict.get string_dec "category" doc = Some (VStr "tone").
Proof.
  split; [discriminate|]. split; [reflexivity|].
  exact (proj1 (category_filter_is_exact
                  (app_with (Some "db")
                     [stored "0" (VStr "tone"); stored "1" (VStr "Tone");
                      stored "2" (VStr "tone of voice")])
                  50 (X := "tone")
                  ltac:(discriminate) eq_refl)).
Defined.

(* ================================================================== *)
(** * Facts about the aggregation *)

Lemma group_count_tally (coll : list document) :
  group_count coll = tally value_eq_dec category_of coll.
Proof. reflexivity. Qed.

Lemma aggregate_perm (coll : list document) :
  Permutation (aggregate coll) (group_count coll).
Proof. apply sorted_perm. Qed.

(** The groups are the values of [category] that occur in the collection,
    a missing field counting as [None]. *)
Lemma In_groups (coll : list document) (g : value) :
  In g (map fst (aggregate coll)) <-> In g (map category_of coll).
Proof.
  rewrite <- (In_keys_tally value_eq_dec category_of g coll).
  rewrite <- group_count_tally.
  split; apply Permutation_in; [|symmetry]; apply Permutation_map, aggregate_perm.
Qed.

Lemma NoDup_groups (coll : list document) : NoDup (map fst (aggregate coll)).
Proof.
  apply Permutation_NoDup with (l := PyDict.keys (group_count coll)).
  - symmetry. apply Permutation_map, aggregate_perm.
  - rewrite group_count_tally. apply NoDup_keys_tally.
Qed.

Lemma sum_groups (coll : list document) :
  sum (map snd (aggregate coll)) = List.length coll.
Proof.
  rewrite (sum_perm (Permutation_map snd (aggregate_perm coll))).
  rewrite group_count_tally. apply sum_values_tally.
Qed.

Lemma breakdown_keys_from (agg : list (value * nat)) (d : dict value nat)
    (k : value) :
  In k (PyDict.keys
          (fold_left
             (fun breakdown item =>
                PyDict.set value_eq_dec (py_or (fst item) (VStr "Unknown"))
                  (snd item) breakdown)
             agg d))
  <-> In k (PyDict.keys d) \/ exists g, In g (map fst agg) /\ label g = k.
Proof.
  revert d; induction agg as [|item agg IH]; intros d; simpl.
  - split; [auto | intros [H|(g & [] & _)]; assumption].
  - rewrite IH, In_keys_set. fold (label (fst item)). split.
    + intros [[->|H]|(g & I & E)]; eauto.
    + intros [H|(g & [<-|I] & E)]; eauto.
Qed.

(** The keys of the breakdown are the labels of the groups. *)
Lemma breakdown_keys (agg : list (value * nat)) (k : value) :
  In k (PyDict.keys (breakdown_of agg))
  <-> exists g, In g (map fst agg) /\ label g = k.
Proof.
  unfold breakdown_of. rewrite breakdown_keys_from. simpl. tauto.
Qed.

Lemma breakdown_from_distinct (agg : list (value * nat)) (d : dict value nat) :
  NoDup (PyDict.keys d ++ map label (map fst agg)) ->
  fold_left
    (fun breakdown item =>
       PyDict.set value_eq_dec (py_or (fst item) (VStr "Unknown"))
         (snd item) breakdown)
    agg d
  = (d ++ map (fun item => (label (fst item), snd item)) agg)%list.
Proof.
  revert d; induction agg as [|item agg IH]; intros d ND; simpl.
  - now rewrite app_nil_r.
  - fold (label (fst item)). simpl in ND.
    rewrite set_absent.
    + rewrite IH.
      * now rewrite <- app_assoc.
      * unfold PyDict.keys in *. rewrite map_app, <- app_assoc. exact ND.
    + apply NoDup_remove_2 in ND. intros I. apply ND, in_or_app. now left.
Qed.

(** When no two groups share a label, the breakdown holds every group
    with its count. *)
Lemma breakdown_of_distinct (agg : list (value * nat)) :
  NoDup (map label (map fst agg)) ->
  breakdown_of agg = map (fun item => (label (fst item), snd item)) agg.
Proof. intros ND. unfold breakdown_of. now rewrite breakdown_from_distinct. Qed.

(** [total] is the sum of the values of [breakdown], whatever the
    aggregation returned. *)
Lemma total_is_sum_of_breakdown (agg : list (value * nat)) :
  total (summary_of agg) = sum (PyDict.values (breakdown (summary_of agg))).
Proof. reflexivity. Qed.

(** [total] is the number of records when no two groups share a label. *)
Lemma total_counts_records_when_labels_distinct (coll : list document) :
  NoDup (map label (map fst (aggregate coll))) ->
  total (summary_of (aggregate coll)) = List.length coll.
Proof.
  intros ND. unfold summary_of; simpl.
  rewrite breakdown_of_distinct by assumption.
  unfold PyDict.values. rewrite map_map. simpl.
  apply sum_groups.
Qed.

Lemma label_truthy (v : value) : truthy v = true -> label v = v.
Proof. unfold label, py_or. now intros ->. Qed.

(** In particular when every record holds a non-empty [category]. *)
Lemma total_counts_records_when_categories_present (coll : list document) :
  Forall (fun doc => truthy (category_of doc) = true) coll ->
  total (summary_of (aggregate coll)) = List.length coll.
Proof.
  intros F. apply total_counts_records_when_labels_distinct.
  rewrite (map_ext_in label (fun v => v)), map_id; [apply NoDup_groups|].
  intros g I. apply label_truthy. apply In_groups in I.
  apply in_map_iff in I as (doc & <- & I).
  rewrite Forall_forall in F. now apply F.
Qed.

(** ** Groups that share a label *)

Lemma values_positive_set (k : value) (v : nat) (d : dict value nat) :
  0 < v -> Forall (fun kv => 0 < snd kv) d ->
  Forall (fun kv => 0 < snd kv) (PyDict.set value_eq_dec k v d).
Proof.
  intros P. induction d as [|[k' v'] d IH]; simpl; intros F.
  - now repeat constructor.
  - inversion F as [|? ? P' F']; subst.
    destruct (value_eq_dec k k'); constructor; auto.
Qed.

Lemma get_default_positive (k : value) (d : dict value nat) :
  Forall (fun kv => 0 < snd kv) d -> In k (PyDict.keys d) ->
  0 < PyDict.get_default value_eq_dec k 0 d.
Proof.
  intros F I. unfold PyDict.get_default.
  destruct (PyDict.get value_eq_dec k d) as [v|] eqn:G.
  - apply get_Some_In in G. rewrite Forall_forall in F. apply (F _ G).
  - apply get_None_keys in G. tauto.
Qed.

Lemma breakdown_sum_le (agg : list (value * nat)) (d : dict value nat) :
  sum (PyDict.values
         (fold_left
            (fun breakdown item =>
               PyDict.set value_eq_dec (py_or (fst item) (VStr "Unknown"))
                 (snd item) breakdown)
            agg d))
  <= sum (PyDict.values d) + sum (map snd agg).
Proof.
  revert d; induction agg as [|item agg IH]; intros d; simpl; [lia|].
  specialize (IH (PyDict.set value_eq_dec (py_or (fst item) (VStr "Unknown"))
                    (snd item) d)).
  pose proof (sum_values_set value_eq_dec
                (py_or (fst item) (VStr "Unknown")) (snd item) d).
  lia.
Qed.

(** A count is lost each time a group is filed under a label that is
    already taken. *)
Lemma breakdown_sum_lt (agg : list (value * nat)) (d : dict value nat) :
  Forall (fun kv => 0 < snd kv) agg ->
  Forall (fun kv => 0 < snd kv) d ->
  NoDup (PyDict.keys d) ->
  ~ NoDup (PyDict.keys d ++ map label (map fst agg)) ->
  sum (PyDict.values
         (fold_left
            (fun breakdown item =>
               PyDict.set value_eq_dec (py_or (fst item) (VStr "Unknown"))
                 (snd item) breakdown)
            agg d))
  < sum (PyDict.values d) + sum (map snd agg).
Proof.
  revert d; induction agg as [|item agg IH]; intros d Fa Fd ND Col; simpl.
  - elim Col. simpl. now rewrite app_nil_r.
  - inversion Fa as [|? ? Pi Fa']; subst.
    fold (label (fst item)).
    pose proof (sum_values_set value_eq_dec (label (fst item)) (snd item) d)
      as S.
    destruct (in_dec value_eq_dec (label (fst item)) (PyDict.keys d)) as [I|NI].
    + pose proof (get_default_positive (label (fst item)) Fd I).
      pose proof (breakdown_sum_le agg
                    (PyDict.set value_eq_dec (label (fst item)) (snd item) d))
        as L.
      unfold label in *. lia.
    + assert (Lt : sum (PyDict.values
                (fold_left
                   (fun breakdown item0 =>
                      PyDict.set value_eq_dec
                        (py_or (fst item0) (VStr "Unknown")) (snd item0)
                        breakdown)
                   agg (PyDict.set value_eq_dec (label (fst item)) (snd item) d)))
              < sum (PyDict.values
                       (PyDict.set value_eq_dec (label (fst item)) (snd item) d))
                + sum (map snd agg)).
      { apply IH.
        - assumption.
        - now apply values_positive_set.
        - now apply NoDup_keys_set.
        - rewrite keys_set_absent by assumption.
          rewrite <- app_assoc. exact Col. }
      assert (Z0 : PyDict.get_default value_eq_dec (label (fst item)) 0 d = 0).
      { unfold PyDict.get_default.
        now rewrite (proj2 (get_None_keys value_eq_dec (label (fst item)) d) NI). }
      unfold label in *. lia.
Qed.

Lemma aggregate_counts_positive (coll : list document) :
  Forall (fun kv => 0 < snd kv) (aggregate coll).
Proof.
  rewrite Forall_forall. intros [g n] I.
  apply (Permutation_in _ (aggregate_perm coll)) in I.
  rewrite group_count_tally in I. apply In_tally in I. simpl. tauto.
Qed.

(** [total] falls short of the number of records as soon as two groups
    share a label. *)
Lemma total_lt_records_when_labels_collide (coll : list document) :
  ~ NoDup (map label (map fst (aggregate coll))) ->
  total (summary_of (aggregate coll)) < List.length coll.
Proof.
  intros Col. rewrite <- sum_groups. unfold summary_of, breakdown_of; simpl.
  apply (breakdown_sum_lt (d := [])).
  - apply aggregate_counts_positive.
  - constructor.
  - constructor.
  - exact Col.
Qed.

Lemma NoDup_map_injective (A B : Type) (f : A -> B) (l : list A) (a b : A) :
  NoDup (map f l) -> In a l -> In b l -> f a = f b -> a = b.
Proof.
  induction l as [|x l IH]; simpl; [tauto|].
  intros ND Ia Ib E. inversion ND as [|? ? NI ND']; subst.
  destruct Ia as [<-|Ia], Ib as [<-|Ib]; auto.
  - elim NI. rewrite E. now apply in_map.
  - elim NI. rewrite <- E. now apply in_map.
Qed.

(** Two records whose categories differ and are filed under one label
    make [total] fall short. *)
Lemma total_lt_records_when_two_categories_share_a_label
    (coll : list document) (doc1 doc2 : document) :
  In doc1 coll -> In doc2 coll ->
  category_of doc1 <> category_of doc2 ->
  label (category_of doc1) = label (category_of doc2) ->
  total (summary_of (aggregate coll)) < List.length coll.
Proof.
  intros I1 I2 NE E. apply total_lt_records_when_labels_collide. intros ND.
  apply NE.
  apply (NoDup_map_injective label (map fst (aggregate coll))); try assumption;
    apply In_groups; now apply in_map.
Qed.

(* ================================================================== *)
(** * GET /api/analytics/summary: theorems *)

(** C1, at the failing input: a collection of two records, one without a
    category and one with the category "Unknown".  The aggregation
    returns two groups of one record each; both are filed under the key
    "Unknown", the second assignment replaces the first, and [total],
    the sum of the values of [breakdown], is 1 for 2 records.  The result
    is the same in whichever order the aggregation returns the tied
    groups, and the same when the first record has the empty string for
    category. *)
Theorem total_misses_records_on_label_collision :
  let coll := [stored "0" VNone; stored "1" (VStr "Unknown")] in
  let coll' := [stored "0" (VStr ""); stored "1" (VStr "Unknown")] in
  List.length coll = 2
  /\ aggregate coll = [(VNone, 1); (VStr "Unknown", 1)]
  /\ fst (analytics_summary (app_with (Some "db") coll))
     = OK {| total := 1; breakdown := [(VStr "Unknown", 1)] |}
  /\ (forall agg, Permutation (aggregate coll) agg ->
        total (summary_of agg) = 1
        /\ total (summary_of agg)
           = sum (PyDict.values (breakdown (summary_of agg))))
  /\ List.length coll' = 2
  /\ fst (analytics_summary (app_with (Some "db") coll'))
     = OK {| total := 1; breakdown := [(VStr "Unknown", 1)] |}.
Proof.
  intros coll coll'.
  split; [reflexivity|]. split; [reflexivity|]. split; [reflexivity|].
  split; [|split; reflexivity].
  intros agg P.
  change (aggregate coll) with [(VNone, 1); (VStr "Unknown", 1)] in P.
  apply Permutation_length_2_inv in P as [->| ->]; split; reflexivity.
Qed.

(** C2, as stated, fails for the empty string: a group whose category
    is present, non-null and empty is filed under "Unknown", not under its
    own label. *)
Lemma empty_category_is_filed_under_Unknown :
  let coll := [stored "0" (VStr "")] in
  aggregate coll = [(VStr "", 1)]
  /\ fst (analytics_summary (app_with (Some "db") coll))
     = OK {| total := 1; breakdown := [(VStr "Unknown", 1)] |}
  /\ ~ In (VStr "") (PyDict.keys (breakdown_of (aggregate coll)))
  /\ VStr "" <> VNone.
Proof.
  intros coll. split; [reflexivity|]. split; [reflexivity|]. split.
  - vm_compute. intros [H|[]]. discriminate.
  - discriminate.
Qed.

(** C2, amended. In the breakdown of GET /api/analytics/summary every
    record of the collection is filed under the label of its category:
    "Unknown" when the category is null, missing or the empty string, and
    the category itself, verbatim, otherwise; the breakdown has no other
    keys, and the only category that is filed under "Unknown" besides
    those three is "Unknown" itself. *)
Theorem breakdown_labels (coll : list document) :
  let b := breakdown (summary_of (aggregate coll)) in
  (forall doc, In doc coll -> In (label (category_of doc)) (PyDict.keys b))
  /\ (forall k, In k (PyDict.keys b) ->
        exists doc, In doc coll /\ k = label (category_of doc))
  /\ (forall doc, PyDict.get string_dec "category" doc = None ->
        label (category_of doc) = VStr "Unknown")
  /\ label VNone = VStr "Unknown"
  /\ label (VStr "") = VStr "Unknown"
  /\ (forall v, v <> VNone -> v <> VStr "" -> label v = v)
  /\ (forall v, label v = VStr "Unknown" ->
        v = VNone \/ v = VStr "" \/ v = VStr "Unknown").
Proof.
  intros b.
  assert (T : forall v, v <> VNone -> v <> VStr "" -> truthy v = true).
  { intros [|s| |] N1 N2; try reflexivity; [congruence|].
    apply truthy_str. congruence. }
  split; [|split; [|split; [|split; [|split; [|split]]]]].
  - intros doc I. apply breakdown_keys. exists (category_of doc).
    split; [|reflexivity]. apply In_groups. now apply in_map.
  - intros k I. apply breakdown_keys in I as (g & I & <-).
    apply In_groups, in_map_iff in I as (doc & <- & I). eauto.
  - intros doc G. unfold category_of, field_path, PyDict.get_default.
    now rewrite G.
  - reflexivity.
  - reflexivity.
  - intros v N1 N2. now apply label_truthy, T.
  - intros v E. destruct (value_eq_dec v VNone) as [|N1]; [auto|].
    destruct (value_eq_dec v (VStr "")) as [|N2]; [auto|].
    rewrite (label_truthy _ (T v N1 N2)) in E. auto.
Qed.

(* ================================================================== *)
(** * No "Unknown" in the summarizer *)

Lemma validate_items_rejects (raws : list RawFeedbackOut) (it : RawFeedbackOut) :
  In it raws -> required_str (raw_category it) = None ->
  validate_items raws = None.
Proof.
  induction raws as [|raw raws IH]; simpl; [tauto|].
  intros [->|I] H.
  - unfold validate_FeedbackOut. rewrite H.
    destruct (required_str (raw_id it)), (required_str (raw_question it)),
      (required_str (raw_response it)), (required_str (raw_improvement it));
      reflexivity.
  - rewrite (IH I H). now destruct (validate_FeedbackOut raw).
Qed.

Lemma null_or_missing_category_rejected (raw : RawInsightRequest)
    (raws : list RawFeedbackOut) (it : RawFeedbackOut) :
  raw_items raw = Some raws -> In it raws ->
  raw_category it = Null \/ raw_category it = Missing ->
  post_insights raw = HTTPException 422 "Unprocessable Entity".
Proof.
  intros E I C. unfold post_insights, validate_InsightRequest.
  rewrite E, (validate_items_rejects raws it I); [reflexivity|].
  destruct C as [-> | ->]; reflexivity.
Qed.

(** C7, as stated, fails: no request that holds an item with a null or
    missing category is counted at all.  [FeedbackOut] declares
    [category: str], so such a request does not validate and the handler
    never runs on it; there is no [None] key to count under. *)
Lemma null_category_never_reaches_summarizer :
  post_insights {| raw_items := Some [raw_item (JStr "tone"); raw_item Null];
                   raw_scope := JStr "all" |}
  = HTTPException 422 "Unprocessable Entity"
  /\ post_insights {| raw_items := Some [raw_item Missing];
                      raw_scope := JStr "all" |}
     = HTTPException 422 "Unprocessable Entity"
  /\ ~ (exists raw raws it body,
          raw_items raw = Some raws /\ In it raws
          /\ (raw_category it = Null \/ raw_category it = Missing)
          /\ post_insights raw = OK body).
Proof.
  split; [reflexivity|]. split; [reflexivity|].
  intros (raw & raws & it & body & E & I & C & R).
  rewrite (@null_or_missing_category_rejected raw raws it E I C) in R. discriminate.
Qed.

(** C7, amended. The summarizer substitutes no label: the keys of its
    count are exactly the category strings of the items, verbatim, each
    with the number of its items.  So an item whose category is the empty
    string is counted under the empty string, where the breakdown of
    GET /api/analytics/summary files such a record under "Unknown".  An
    item with a null or missing category never reaches the summarizer:
    the request model rejects the request with status 422. *)
Theorem summarizer_keeps_categories_verbatim :
  (forall its k,
     In k (PyDict.keys (count_categories its)) <-> In k (map category its))
  /\ (forall its k n,
        In (k, n) (count_categories its) <-> n = item_count its k /\ 0 < n)
  /\ count_categories [item_of_category ""] = [("", 1)]
  /\ breakdown_of (aggregate [stored "0" (VStr "")]) = [(VStr "Unknown", 1)]
  /\ generate_ai_insights_summary
       {| items := [item_of_category ""]; scope := "all" |}
     = "Analyzed 1 feedback item(s). Most frequent issues: : 1. "
         ++ recommendation
  /\ (forall raw raws it,
        raw_items raw = Some raws -> In it raws ->
        raw_category it = Null \/ raw_category it = Missing ->
        post_insights raw = HTTPException 422 "Unprocessable Entity").
Proof.
  split; [|split; [|split; [|split; [|split]]]]; try reflexivity.
  - intros its k. apply (In_keys_tally string_dec category).
  - intros its k n. apply (In_tally string_dec category).
  - exact null_or_missing_category_rejected.
Qed.

Lemma summarizer_keeps_categories_verbatim_witness :
  In (raw_item Null) [raw_item Null]
  /\ post_insights {| raw_items := Some [raw_item Null];
                      raw_scope := JStr "all" |}
     = HTTPException 422 "Unprocessable Entity".
Proof.
  split; [now left|].
  refine (proj2 (proj2 (proj2 (proj2 (proj2
            summarizer_keeps_categories_verbatim))))
            {| raw_items := Some [raw_item Null]; raw_scope := JStr "all" |}
            [raw_item Null] (raw_item Null) eq_refl _ _).
  - now left.
  - now left.
Defined.

(* ================================================================== *)
(** * Serialization of stored documents *)

Lemma serialize_steps (doc : document) :
  _serialize doc
  = isoformat_field "updated_at" (isoformat_field "created_at" (rename_id doc)).
Proof. reflexivity. Qed.

Lemma get_isoformat_field_other (key k : string) (doc : document) :
  k <> key ->
  PyDict.get string_dec k (isoformat_field key doc) = PyDict.get string_dec k doc.
Proof.
  intros N. unfold isoformat_field.
  destruct (PyDict.get string_dec key doc) as [[| | |t]|]; try reflexivity.
  now apply get_set_other.
Qed.

Lemma get_isoformat_field_same (key : string) (doc : document) :
  PyDict.get string_dec key (isoformat_field key doc)
  = as_text (PyDict.get string_dec key doc).
Proof.
  unfold isoformat_field.
  destruct (PyDict.get string_dec key doc) as [[| | |t]|] eqn:G;
    try (now rewrite G).
  simpl. apply get_set_same.
Qed.

Lemma isoformat_field_nothing_to_do (key : string) (doc : document) :
  is_datetime (PyDict.get string_dec key doc) = false ->
  isoformat_field key doc = doc.
Proof.
  unfold isoformat_field.
  destruct (PyDict.get string_dec key doc) as [[| | |t]|]; simpl;
    intros H; [reflexivity | reflexivity | reflexivity | discriminate | reflexivity].
Qed.

Lemma as_text_not_datetime (o : option value) : is_datetime (as_text o) = false.
Proof. destruct o as [[| | |t]|]; reflexivity. Qed.

Lemma get_rename_id_other (k : string) (doc : document) :
  k <> "_id" -> k <> "id" ->
  PyDict.get string_dec k (rename_id doc) = PyDict.get string_dec k doc.
Proof.
  intros N1 N2. unfold rename_id.
  destruct (PyDict.get string_dec "_id" doc) as [v|]; [|reflexivity].
  destruct (truthy v); [|reflexivity].
  rewrite get_set_other by assumption. now apply get_remove_other.
Qed.

Lemma rename_id_nothing_to_do (doc : document) :
  falsy_or_missing (PyDict.get string_dec "_id" doc) = true ->
  rename_id doc = doc.
Proof.
  unfold rename_id.
  destruct (PyDict.get string_dec "_id" doc) as [v|]; simpl; [|reflexivity].
  destruct (truthy v); [discriminate | reflexivity].
Qed.

Lemma keys_remove_incl (K V : Type)
    (K_eq_dec : forall a b : K, {a = b} + {a <> b}) (k k0 : K) (d : dict K V) :
  In k0 (PyDict.keys (PyDict.remove K_eq_dec k d)) -> In k0 (PyDict.keys d).
Proof.
  induction d as [|[k' v'] d IH]; simpl; [tauto|].
  destruct (K_eq_dec k k'); simpl; [now right | intros [E|I]; auto].
Qed.

Lemma NoDup_keys_remove (K V : Type)
    (K_eq_dec : forall a b : K, {a = b} + {a <> b}) (k : K) (d : dict K V) :
  NoDup (PyDict.keys d) -> NoDup (PyDict.keys (PyDict.remove K_eq_dec k d)).
Proof.
  induction d as [|[k' v'] d IH]; simpl; intros ND; [constructor|].
  inversion ND as [|? ? NI ND']; subst.
  destruct (K_eq_dec k k'); simpl; [assumption|].
  constructor; [|auto]. intros I. apply NI. eapply keys_remove_incl; eassumption.
Qed.

Lemma get_remove_same (K V : Type)
    (K_eq_dec : forall a b : K, {a = b} + {a <> b}) (k : K) (d : dict K V) :
  NoDup (PyDict.keys d) ->
  PyDict.get K_eq_dec k (PyDict.remove K_eq_dec k d) = None.
Proof.
  induction d as [|[k' v'] d IH]; simpl; intros ND; [reflexivity|].
  inversion ND as [|? ? NI ND']; subst.
  destruct (K_eq_dec k k') as [E|N]; simpl.
  - subst k'. now apply get_None_keys.
  - destruct (K_eq_dec k k'); [congruence | auto].
Qed.

Lemma NoDup_keys_rename_id (doc : document) :
  NoDup (PyDict.keys doc) -> NoDup (PyDict.keys (rename_id doc)).
Proof.
  intros ND. unfold rename_id.
  destruct (PyDict.get string_dec "_id" doc) as [v|]; [|assumption].
  destruct (truthy v); [|assumption].
  now apply NoDup_keys_set, NoDup_keys_remove.
Qed.

Lemma NoDup_keys_isoformat_field (key : string) (doc : document) :
  NoDup (PyDict.keys doc) -> NoDup (PyDict.keys (isoformat_field key doc)).
Proof.
  intros ND. unfold isoformat_field.
  destruct (PyDict.get string_dec key doc) as [[| | |t]|]; try assumption.
  now apply NoDup_keys_set.
Qed.

Lemma rename_id_leaves_no_true_id (doc : document) :
  NoDup (PyDict.keys doc) ->
  falsy_or_missing (PyDict.get string_dec "_id" (rename_id doc)) = true.
Proof.
  intros ND. unfold rename_id.
  destruct (PyDict.get string_dec "_id" doc) as [v|] eqn:G.
  - destruct (truthy v) eqn:T.
    + rewrite get_set_other by discriminate.
      now rewrite get_remove_same.
    + rewrite G. simpl. now rewrite T.
  - now rewrite G.
Qed.

Lemma get_serialize_created_at (doc : document) :
  PyDict.get string_dec "created_at" (_serialize doc)
  = as_text (PyDict.get string_dec "created_at" doc).
Proof.
  rewrite serialize_steps, get_isoformat_field_other by discriminate.
  rewrite get_isoformat_field_same.
  now rewrite get_rename_id_other by discriminate.
Qed.

Lemma get_serialize_updated_at (doc : document) :
  PyDict.get string_dec "updated_at" (_serialize doc)
  = as_text (PyDict.get string_dec "updated_at" doc).
Proof.
  rewrite serialize_steps, get_isoformat_field_same.
  rewrite get_isoformat_field_other by discriminate.
  now rewrite get_rename_id_other by discriminate.
Qed.

(** X1. [_serialize] touches no field but [_id], [id], [created_at] and
    [updated_at]: every other key keeps its value, and a key that was
    absent stays absent. *)
Theorem serialize_keeps_other_fields (doc : document) (k : string) :
  ~ In k serialize_keys ->
  PyDict.get string_dec k (_serialize doc) = PyDict.get string_dec k doc.
Proof.
  intros NI. unfold serialize_keys in NI. simpl in NI.
  assert (N1 : k <> "_id") by (intros ->; tauto).
  assert (N2 : k <> "id") by (intros ->; tauto).
  assert (N3 : k <> "created_at") by (intros ->; tauto).
  assert (N4 : k <> "updated_at") by (intros ->; tauto).
  rewrite serialize_steps, !get_isoformat_field_other by assumption.
  now apply get_rename_id_other.
Qed.

Lemma serialize_keeps_other_fields_witness :
  ~ In "severity" serialize_keys
  /\ PyDict.get string_dec "severity" (_serialize (stored "7" (VStr "tone")))
     = PyDict.get string_dec "severity" (stored "7" (VStr "tone")).
Proof.
  assert (N : ~ In "severity" serialize_keys).
  { simpl. intros [H|[H|[H|[H|[]]]]]; discriminate. }
  split; [exact N|].
  exact (serialize_keeps_other_fields (stored "7" (VStr "tone")) N).
Defined.

(** X2. A document whose [_id] holds a true value comes out of
    [_serialize] with that value as text under [id] and without the key
    [_id]. *)
Theorem serialize_renames_id (doc : document) (v : value) :
  NoDup (PyDict.keys doc) ->
  PyDict.get string_dec "_id" doc = Some v ->
  truthy v = true ->
  PyDict.get string_dec "id" (_serialize doc) = Some (VStr (py_str v))
  /\ PyDict.get string_dec "_id" (_serialize doc) = None.
Proof.
  intros ND G T.
  rewrite serialize_steps, !get_isoformat_field_other by discriminate.
  unfold rename_id. rewrite G, T. split.
  - apply get_set_same.
  - rewrite get_set_other by discriminate. now apply get_remove_same.
Qed.

Lemma serialize_renames_id_witness :
  NoDup (PyDict.keys (stored "7" (VStr "tone")))
  /\ PyDict.get string_dec "id" (_serialize (stored "7" (VStr "tone")))
     = Some (VStr "7")
  /\ PyDict.get string_dec "_id" (_serialize (stored "7" (VStr "tone"))) = None.
Proof.
  assert (ND : NoDup (PyDict.keys (stored "7" (VStr "tone")))).
  { simpl. repeat constructor; simpl;
      intros H; repeat (destruct H as [H|H]; [discriminate|]); exact H. }
  split; [exact ND|].
  exact (@serialize_renames_id (stored "7" (VStr "tone")) (VObjectId "7")
           ND eq_refl eq_refl).
Defined.

(** X3. A document without [_id], or whose [_id] holds [None] or the
    empty string, gets no [id] from [_serialize]: both keys are left as
    they were. *)
Theorem serialize_without_true_id (doc : document) :
  falsy_or_missing (PyDict.get string_dec "_id" doc) = true ->
  PyDict.get string_dec "id" (_serialize doc) = PyDict.get string_dec "id" doc
  /\ PyDict.get string_dec "_id" (_serialize doc)
     = PyDict.get string_dec "_id" doc.
Proof.
  intros F. rewrite serialize_steps, !get_isoformat_field_other by discriminate.
  now rewrite (rename_id_nothing_to_do doc F).
Qed.

Lemma serialize_without_true_id_witness :
  falsy_or_missing
    (PyDict.get string_dec "_id" [("_id", VStr ""); ("category", VStr "tone")])
  = true
  /\ PyDict.get string_dec "id"
       (_serialize [("_id", VStr ""); ("category", VStr "tone")]) = None
  /\ PyDict.get string_dec "_id"
       (_serialize [("_id", VStr ""); ("category", VStr "tone")])
     = Some (VStr "").
Proof.
  split; [reflexivity|].
  exact (@serialize_without_true_id
           [("_id", VStr ""); ("category", VStr "tone")] eq_refl).
Defined.

(** X4. After [_serialize] neither [created_at] nor [updated_at] holds a
    datetime: a datetime is replaced by its ISO text, any other value,
    and an absent key, are left as they were. *)
Theorem serialize_timestamps_as_text (doc : document) :
  PyDict.get string_dec "created_at" (_serialize doc)
  = as_text (PyDict.get string_dec "created_at" doc)
  /\ PyDict.get string_dec "updated_at" (_serialize doc)
     = as_text (PyDict.get string_dec "updated_at" doc)
  /\ is_datetime (PyDict.get string_dec "created_at" (_serialize doc)) = false
  /\ is_datetime (PyDict.get string_dec "updated_at" (_serialize doc)) = false.
Proof.
  rewrite get_serialize_created_at, get_serialize_updated_at.
  repeat split; apply as_text_not_datetime.
Qed.

(** X5. [_serialize] keeps the keys of a document distinct, and
    serializing a serialized document changes nothing. *)
Theorem serialize_idempotent (doc : document) :
  NoDup (PyDict.keys doc) ->
  NoDup (PyDict.keys (_serialize doc))
  /\ _serialize (_serialize doc) = _serialize doc.
Proof.
  intros ND. split.
  - rewrite serialize_steps.
    now apply NoDup_keys_isoformat_field, NoDup_keys_isoformat_field,
      NoDup_keys_rename_id.
  - rewrite (serialize_steps (_serialize doc)).
    rewrite (rename_id_nothing_to_do (_serialize doc)).
    + rewrite (isoformat_field_nothing_to_do "created_at")
        by (rewrite get_serialize_created_at; apply as_text_not_datetime).
      apply isoformat_field_nothing_to_do.
      rewrite get_serialize_updated_at. apply as_text_not_datetime.
    + rewrite serialize_steps, !get_isoformat_field_other by discriminate.
      now apply rename_id_leaves_no_true_id.
Qed.

Lemma serialize_idempotent_witness :
  NoDup (PyDict.keys (stored_updated "7" (VStr "tone")))
  /\ _serialize (_serialize (stored_updated "7" (VStr "tone")))
     = _serialize (stored_updated "7" (VStr "tone")).
Proof.
  assert (ND : NoDup (PyDict.keys (stored_updated "7" (VStr "tone")))).
  { simpl. repeat constructor; simpl;
      intros H; repeat (destruct H as [H|H]; [discriminate|]); exact H. }
  split; [exact ND|].
  exact (proj2 (@serialize_idempotent (stored_updated "7" (VStr "tone")) ND)).
Defined.

(** X6. Every record that GET /api/feedback returns has been through
    [_serialize]: neither its [created_at] nor its [updated_at] holds a
    datetime. *)
Theorem list_feedback_returns_text_timestamps (app : App) (limit : Z)
    (cat : option string) (docs : list document) :
  fst (list_feedback app limit cat) = OK docs ->
  forall doc, In doc docs ->
    is_datetime (PyDict.get string_dec "created_at" doc) = false
    /\ is_datetime (PyDict.get string_dec "updated_at" doc) = false.
Proof.
  unfold list_feedback. intros R doc I.
  destruct (db app); [|discriminate].
  destruct (get_documents app "feedback" _ limit) as [ds|]; [|discriminate].
  simpl in R. injection R as <-.
  apply in_map_iff in I as (d & <- & _).
  rewrite get_serialize_created_at, get_serialize_updated_at.
  split; apply as_text_not_datetime.
Qed.

Lemma list_feedback_returns_text_timestamps_witness :
  fst (list_feedback (app_with (Some "db") [stored_updated "7" (VStr "tone")])
         50 None)
  = OK [_serialize (stored_updated "7" (VStr "tone"))]
  /\ is_datetime (PyDict.get string_dec "created_at"
                    (_serialize (stored_updated "7" (VStr "tone")))) = false.
Proof.
  split; [reflexivity|].
  exact (proj1 (@list_feedback_returns_text_timestamps
                  (app_with (Some "db") [stored_updated "7" (VStr "tone")])
                  50 None _ eq_refl _ (or_introl eq_refl))).
Defined.

(* ================================================================== *)
(** * More on the insights summarizer *)

Lemma sum_app (a b : list nat) : sum (a ++ b) = sum a + sum b.
Proof.
  induction a as [|x a IH]; simpl; [reflexivity|]. rewrite IH. lia.
Qed.

Lemma sum_top (its : list FeedbackOut) :
  sum (map snd (top_categories its)) = List.length its.
Proof.
  rewrite (sum_perm (Permutation_map snd (top_perm its))).
  rewrite count_categories_tally. apply sum_values_tally.
Qed.

(** X7. The two tests of the summarizer, [if top] and [if total > 0],
    always agree: the summary consists of the first line alone for a
    request without items, and of the three lines, in this order, for any
    other request; it never has two lines. *)
Theorem summary_has_one_or_three_lines (req : InsightRequest) :
  (top_categories (items req) = [] <-> items req = [])
  /\ (items req = [] -> summary_lines req = [analyzed_line 0])
  /\ (items req <> [] ->
        summary_lines req
        = [analyzed_line (List.length (items req));
           issues_line (top_categories (items req));
           recommendation]).
Proof.
  split; [|split].
  - split.
    + intros E. destruct (items req) as [|it its] eqn:EI; [reflexivity|].
      exfalso. apply (@top_nonempty (it :: its)); [discriminate | exact E].
    + intros ->. reflexivity.
  - intros E. unfold summary_lines. rewrite E. reflexivity.
  - intros NE. unfold summary_lines.
    pose proof (top_nonempty NE) as TN.
    destruct (top_categories (items req)) as [|e top]; [congruence|].
    destruct (items req) as [|it its]; [congruence|]. reflexivity.
Qed.

Lemma summary_has_one_or_three_lines_witness :
  items tied_request <> []
  /\ summary_lines tied_request
     = [analyzed_line 4; issues_line [("b", 2); ("a", 2)]; recommendation].
Proof.
  split; [discriminate|].
  exact (proj2 (proj2 (summary_has_one_or_three_lines tied_request))
           ltac:(discriminate)).
Defined.

(** X8. The counts of the ranking add up to the number of items; the
    counts on the "Most frequent issues" line add up to at most that
    number, and to exactly that number when the items have at most three
    distinct categories. *)
Theorem listed_counts_add_up (its : list FeedbackOut) :
  sum (map snd (top_categories its)) = List.length its
  /\ sum (map snd (listed its)) <= List.length its
  /\ (List.length (distinct_categories its) <= 3 ->
        sum (map snd (listed its)) = List.length its).
Proof.
  split; [apply sum_top|]. split.
  - rewrite <- (sum_top its).
    rewrite <- (firstn_skipn 3 (top_categories its)) at 1.
    rewrite map_app, sum_app. unfold listed. lia.
  - intros L. unfold listed. rewrite firstn_all2 by (now rewrite length_top).
    apply sum_top.
Qed.

Lemma listed_counts_add_up_witness :
  List.length (distinct_categories (items tied_request)) <= 3
  /\ sum (map snd (listed (items tied_request))) = 4.
Proof.
  assert (L : List.length (distinct_categories (items tied_request)) <= 3).
  { simpl. repeat constructor. }
  split; [exact L|].
  exact (proj2 (proj2 (listed_counts_add_up (items tied_request))) L).
Defined.

Lemma count_desc_perm_eq (l1 l2 : list nat) :
  StronglySorted ge l1 -> StronglySorted ge l2 -> Permutation l1 l2 ->
  l1 = l2.
Proof.
  revert l2; induction l1 as [|a l1 IH]; intros l2 S1 S2 P.
  - now apply Permutation_nil in P.
  - destruct l2 as [|b l2];
      [apply Permutation_sym, Permutation_nil in P; discriminate|].
    inversion S1 as [|? ? S1' F1]; subst.
    inversion S2 as [|? ? S2' F2]; subst.
    rewrite Forall_forall in F1, F2.
    assert (Ia : In a (b :: l2)) by (apply (Permutation_in _ P); now left).
    assert (Ib : In b (a :: l1))
      by (apply (Permutation_in _ (Permutation_sym P)); now left).
    assert (E : a = b).
    { destruct Ia as [->|Ia]; [reflexivity|].
      destruct Ib as [->|Ib]; [reflexivity|].
      specialize (F1 _ Ib). specialize (F2 _ Ia). lia. }
    subst b. f_equal. apply IH; try assumption.
    now apply Permutation_cons_inv in P.
Qed.

Lemma count_desc_counts (K : Type) (l : list (K * nat)) :
  StronglySorted (@count_desc K) l -> StronglySorted ge (map snd l).
Proof.
  induction 1 as [|x l S IH F]; simpl; constructor; [assumption|].
  rewrite Forall_forall in *. intros n I.
  apply in_map_iff in I as (y & <- & I). apply (F y I).
Qed.

Lemma item_count_perm (its its' : list FeedbackOut) (k : string) :
  Permutation its its' -> item_count its k = item_count its' k.
Proof.
  intros P. unfold item_count, occurrences.
  apply (proj1 (Permutation_count_occ string_dec _ _)).
  now apply Permutation_map.
Qed.

(** X9. Reordering the items of a request changes the ranking at most in
    the order of its entries: the ranking of the reordered request holds
    the same categories with the same counts, and its sequence of counts
    is the same. *)
Theorem ranking_of_reordered_items (its its' : list FeedbackOut) :
  Permutation its its' ->
  Permutation (top_categories its) (top_categories its')
  /\ map snd (top_categories its) = map snd (top_categories its')
  /\ List.length its = List.length its'.
Proof.
  intros P.
  assert (PT : Permutation (top_categories its) (top_categories its')).
  { apply NoDup_Permutation.
    - apply (NoDup_map_inv fst), NoDup_top_keys.
    - apply (NoDup_map_inv fst), NoDup_top_keys.
    - intros [k n]. rewrite !In_top, (item_count_perm k P). reflexivity. }
  split; [exact PT|]. split; [|now apply Permutation_length].
  apply count_desc_perm_eq.
  - apply count_desc_counts, top_count_desc.
  - apply count_desc_counts, top_count_desc.
  - now apply Permutation_map.
Qed.

Lemma ranking_of_reordered_items_witness :
  Permutation (items tied_request) (items tied_request_reordered)
  /\ items tied_request <> items tied_request_reordered
  /\ top_categories (items tied_request) = [("b", 2); ("a", 2)]
  /\ top_categories (items tied_request_reordered) = [("a", 2); ("b", 2)]
  /\ Permutation (top_categories (items tied_request))
       (top_categories (items tied_request_reordered))
  /\ map snd (top_categories (items tied_request))
     = map snd (top_categories (items tied_request_reordered)).
Proof.
  assert (P : Permutation (items tied_request) (items tied_request_reordered)).
  { simpl. eapply perm_trans; [apply perm_swap|].
    apply perm_skip, perm_skip, perm_swap. }
  split; [exact P|]. split; [discriminate|].
  split; [reflexivity|]. split; [reflexivity|].
  destruct (ranking_of_reordered_items P) as (PT & C & _).
  split; [exact PT | exact C].
Defined.

(* ================================================================== *)
(** * Validation of the insights request *)

Lemma validate_FeedbackOut_accepted (raw : RawFeedbackOut) :
  item_accepted raw = true ->
  exists it, validate_FeedbackOut raw = Some it.
Proof.
  unfold item_accepted, validate_FeedbackOut.
  destruct (raw_id raw), (raw_question raw), (raw_response raw),
    (raw_improvement raw), (raw_category raw); simpl; try discriminate.
  destruct (raw_severity raw), (raw_created_at raw); simpl;
    try discriminate; intros _; eauto.
Qed.

Lemma validate_FeedbackOut_rejected (raw : RawFeedbackOut) :
  item_accepted raw = false -> validate_FeedbackOut raw = None.
Proof.
  unfold item_accepted, validate_FeedbackOut.
  destruct (raw_id raw), (raw_question raw), (raw_response raw),
    (raw_improvement raw), (raw_category raw); simpl; try reflexivity.
  destruct (raw_severity raw), (raw_created_at raw); simpl;
    try discriminate; reflexivity.
Qed.

Lemma validate_items_accepted (raws : list RawFeedbackOut) :
  forallb item_accepted raws = true ->
  exists its, validate_items raws = Some its.
Proof.
  induction raws as [|raw raws IH]; simpl; [eauto|].
  intros H. apply andb_true_iff in H as [A B].
  destruct (validate_FeedbackOut_accepted raw A) as [it ->].
  destruct (IH B) as [its ->]. eauto.
Qed.

Lemma validate_items_rejected (raws : list RawFeedbackOut) :
  forallb item_accepted raws = false -> validate_items raws = None.
Proof.
  induction raws as [|raw raws IH]; simpl; [discriminate|].
  intros H. apply andb_false_iff in H as [A|B].
  - now rewrite (validate_FeedbackOut_rejected raw A).
  - rewrite (IH B). now destruct (validate_FeedbackOut raw).
Qed.

Lemma validate_FeedbackOut_agrees (raw : RawFeedbackOut) (it : FeedbackOut) :
  validate_FeedbackOut raw = Some it -> item_agrees raw it.
Proof.
  unfold validate_FeedbackOut, item_agrees.
  destruct (raw_id raw), (raw_question raw), (raw_response raw),
    (raw_improvement raw), (raw_category raw); simpl; try discriminate.
  destruct (raw_severity raw) as [| |sv|], (raw_created_at raw); simpl;
    try discriminate; intros [= <-]; simpl;
    repeat split; try discriminate; try reflexivity;
    intros s' [= <-]; reflexivity.
Qed.

Lemma validate_items_agree (raws : list RawFeedbackOut)
    (its : list FeedbackOut) :
  validate_items raws = Some its -> Forall2 item_agrees raws its.
Proof.
  revert its; induction raws as [|raw raws IH]; simpl; intros its H.
  - injection H as <-. constructor.
  - destruct (validate_FeedbackOut raw) as [it|] eqn:V; [|discriminate].
    destruct (validate_items raws) as [its'|]; [|discriminate].
    injection H as <-. constructor; [now apply validate_FeedbackOut_agrees|].
    now apply IH.
Qed.

(** X10. For a body whose [items], when present, is an array of
    objects, POST /api/analytics/insights runs the handler exactly when
    every item holds strings in [id], [question], [response],
    [improvement] and [category], holds in [severity] and [created_at]
    nothing, null or a string, and [scope] is absent or a string (an
    absent [items] counts as no item); every other such body, one with a
    number in one of these fields for instance, is answered with status
    422. *)
Theorem post_insights_accepts_exactly (raw : RawInsightRequest) :
  (request_accepted raw = true ->
     exists req, validate_InsightRequest raw = Some req
                 /\ post_insights raw = generate_ai_insights req)
  /\ (request_accepted raw = false ->
        post_insights raw = HTTPException 422 "Unprocessable Entity").
Proof.
  unfold request_accepted, raw_items_or_empty, post_insights,
    validate_InsightRequest.
  split; intros H.
  - apply andb_true_iff in H as [A S].
    assert (V : exists its,
               match raw_items raw with
               | Some raws => validate_items raws
               | None => Some []
               end = Some its).
    { destruct (raw_items raw) as [raws|]; [now apply validate_items_accepted|].
      eauto. }
    destruct V as [its ->].
    destruct (raw_scope raw); simpl; try discriminate; eauto.
  - apply andb_false_iff in H as [A|S].
    + destruct (raw_items raw) as [raws|]; [|discriminate].
      now rewrite (validate_items_rejected raws A).
    + destruct (raw_scope raw); try discriminate; simpl;
      now destruct (match raw_items raw with
                    | Some raws => validate_items raws
                    | None => Some []
                    end).
Qed.

Lemma post_insights_accepts_exactly_witness :
  (request_accepted
     {| raw_items := Some [raw_item_with (JStr "tone") Null;
                           raw_item_with (JStr "") Missing];
        raw_scope := JStr "week" |} = true
   /\ post_insights
        {| raw_items := Some [raw_item_with (JStr "tone") Null;
                              raw_item_with (JStr "") Missing];
           raw_scope := JStr "week" |}
      = OK [("summary",
             "Analyzed 2 feedback item(s). Most frequent issues: tone: 1, : 1. "
               ++ recommendation)])
  /\ (request_accepted
        {| raw_items := Some [raw_item_with JOther Null];
           raw_scope := Missing |} = false
      /\ post_insights
           {| raw_items := Some [raw_item_with JOther Null];
              raw_scope := Missing |}
         = HTTPException 422 "Unprocessable Entity")
  /\ (request_accepted
        {| raw_items := Some [raw_item_with (JStr "tone") JOther];
           raw_scope := Missing |} = false
      /\ post_insights
           {| raw_items := Some [raw_item_with (JStr "tone") JOther];
              raw_scope := Missing |}
         = HTTPException 422 "Unprocessable Entity")
  /\ (request_accepted
        {| raw_items := Some [raw_item_with (JStr "tone") Null];
           raw_scope := JOther |} = false
      /\ post_insights
           {| raw_items := Some [raw_item_with (JStr "tone") Null];
              raw_scope := JOther |}
         = HTTPException 422 "Unprocessable Entity").
Proof.
  split; [split; [reflexivity|]|].
  - destruct (proj1 (post_insights_accepts_exactly
        {| raw_items := Some [raw_item_with (JStr "tone") Null;
                              raw_item_with (JStr "") Missing];
           raw_scope := JStr "week" |}) eq_refl) as (req & V & E).
    injection V as <-. exact E.
  - split; [|split]; (split; [reflexivity|]).
    + exact (proj2 (post_insights_accepts_exactly
        {| raw_items := Some [raw_item_with JOther Null];
           raw_scope := Missing |}) eq_refl).
    + exact (proj2 (post_insights_accepts_exactly
        {| raw_items := Some [raw_item_with (JStr "tone") JOther];
           raw_scope := Missing |}) eq_refl).
    + exact (proj2 (post_insights_accepts_exactly
        {| raw_items := Some [raw_item_with (JStr "tone") Null];
           raw_scope := JOther |}) eq_refl).
Defined.

(** X11. A body that validates reaches the handler with its items in
    the same number and order and with the same strings in the five
    required fields; a missing [severity] becomes "medium", a null one
    stays [None]; a missing [scope] becomes "all" and a given one is
    kept. *)
Theorem validation_keeps_items (raw : RawInsightRequest)
    (req : InsightRequest) :
  validate_InsightRequest raw = Some req ->
  Forall2 item_agrees (raw_items_or_empty raw) (items req)
  /\ List.length (items req) = List.length (raw_items_or_empty raw)
  /\ (raw_scope raw = Missing -> scope req = "all")
  /\ (forall s, raw_scope raw = JStr s -> scope req = s).
Proof.
  unfold validate_InsightRequest, raw_items_or_empty. intros V.
  assert (A : Forall2 item_agrees
                (match raw_items raw with Some raws => raws | None => [] end)
                (items req)
              /\ defaulted_str "all" (raw_scope raw) = Some (scope req)).
  { destruct (raw_items raw) as [raws|].
    - destruct (validate_items raws) as [its|] eqn:VI; [|discriminate].
      destruct (defaulted_str "all" (raw_scope raw)); [|discriminate].
      injection V as <-. simpl. split; [now apply validate_items_agree | reflexivity].
    - destruct (defaulted_str "all" (raw_scope raw)); [|discriminate].
      injection V as <-. simpl. split; [constructor | reflexivity]. }
  destruct A as [F S]. split; [exact F|]. split; [|split].
  - symmetry. eapply Forall2_length; eassumption.
  - intros E. rewrite E in S. simpl in S. congruence.
  - intros s E. rewrite E in S. simpl in S. congruence.
Qed.

Lemma validation_keeps_items_witness :
  validate_InsightRequest
    {| raw_items := Some [raw_item (JStr "tone"); raw_item (JStr "accuracy")];
       raw_scope := Missing |}
  = Some {| items := [item_of_category "tone"; item_of_category "accuracy"];
            scope := "all" |}
  /\ List.length [item_of_category "tone"; item_of_category "accuracy"] = 2.
Proof.
  split; [reflexivity|].
  exact (proj1 (proj2 (@validation_keeps_items
    {| raw_items := Some [raw_item (JStr "tone"); raw_item (JStr "accuracy")];
       raw_scope := Missing |}
    {| items := [item_of_category "tone"; item_of_category "accuracy"];
       scope := "all" |} eq_refl))).
Defined.

(* ================================================================== *)
(** * More on GET /api/analytics/summary *)

Lemma In_set_inv (K V : Type) (K_eq_dec : forall a b : K, {a = b} + {a <> b})
    (k k0 : K) (v v0 : V) (d : dict K V) :
  In (k0, v0) (PyDict.set K_eq_dec k v d) ->
  (k0 = k /\ v0 = v) \/ In (k0, v0) d.
Proof.
  induction d as [|[k' v'] d IH]; simpl.
  - intros [[= <- <-]|[]]. now left.
  - destruct (K_eq_dec k k'); simpl.
    + intros [[= <- <-]|I]; auto.
    + intros [E|I]; [auto|]. destruct (IH I); auto.
Qed.

Lemma breakdown_entries_from (agg : list (value * nat)) (d : dict value nat)
    (k : value) (n : nat) :
  In (k, n)
     (fold_left
        (fun breakdown item =>
           PyDict.set value_eq_dec (py_or (fst item) (VStr "Unknown"))
             (snd item) breakdown)
        agg d) ->
  In (k, n) d \/ exists g, In (g, n) agg /\ label g = k.
Proof.
  revert d; induction agg as [|[g c] agg IH]; intros d; simpl; [auto|].
  intros I. apply IH in I as [I|(g' & I & E)].
  - apply In_set_inv in I as [[-> ->]|I]; [|auto].
    right. exists g. split; [now left | reflexivity].
  - right. exists g'. split; [now right | assumption].
Qed.

Lemma NoDup_breakdown_from (agg : list (value * nat)) (d : dict value nat) :
  NoDup (PyDict.keys d) ->
  NoDup (PyDict.keys
           (fold_left
              (fun breakdown item =>
                 PyDict.set value_eq_dec (py_or (fst item) (VStr "Unknown"))
                   (snd item) breakdown)
              agg d)).
Proof.
  revert d; induction agg as [|item agg IH]; intros d ND; simpl; [assumption|].
  now apply IH, NoDup_keys_set.
Qed.

Lemma count_desc_relabel (K L : Type) (f : K * nat -> L) (l : list (K * nat)) :
  StronglySorted (@count_desc K) l ->
  StronglySorted (@count_desc L) (map (fun item => (f item, snd item)) l).
Proof.
  induction 1 as [|x l S IH F]; simpl; constructor; [assumption|].
  rewrite Forall_forall in *. intros y I.
  apply in_map_iff in I as (z & <- & I). apply (F z I).
Qed.

(** X12. [total] never exceeds the number of records of the
    collection; it equals that number when no two groups are filed under
    the same label, and falls short of it when two are. *)
Theorem total_against_record_count (coll : list document) :
  total (summary_of (aggregate coll)) <= List.length coll
  /\ (NoDup (map label (map fst (aggregate coll))) ->
        total (summary_of (aggregate coll)) = List.length coll)
  /\ (~ NoDup (map label (map fst (aggregate coll))) ->
        total (summary_of (aggregate coll)) < List.length coll).
Proof.
  split; [|split].
  - rewrite <- sum_groups. unfold summary_of, breakdown_of; simpl.
    apply (breakdown_sum_le (aggregate coll) []).
  - apply total_counts_records_when_labels_distinct.
  - apply total_lt_records_when_labels_collide.
Qed.

Lemma total_against_record_count_witness :
  NoDup (map label (map fst
           (aggregate [stored "0" (VStr "tone"); stored "1" VNone;
                       stored "2" (VStr "tone")])))
  /\ total (summary_of
              (aggregate [stored "0" (VStr "tone"); stored "1" VNone;
                          stored "2" (VStr "tone")])) = 3.
Proof.
  assert (ND : NoDup (map label (map fst
                 (aggregate [stored "0" (VStr "tone"); stored "1" VNone;
                             stored "2" (VStr "tone")])))).
  { vm_compute. repeat constructor; simpl;
      intros H; repeat (destruct H as [H|H]; [discriminate|]); exact H. }
  split; [exact ND|].
  exact (proj1 (proj2 (total_against_record_count
           [stored "0" (VStr "tone"); stored "1" VNone;
            stored "2" (VStr "tone")])) ND).
Defined.

(** X13. Every value of the breakdown is positive and is the number of
    records of one category that is filed under its key: labels that
    collide are not added up, the count of one of the groups stands. *)
Theorem breakdown_values_are_group_counts (coll : list document)
    (k : value) (n : nat) :
  In (k, n) (breakdown (summary_of (aggregate coll))) ->
  0 < n
  /\ exists doc, In doc coll
                 /\ label (category_of doc) = k
                 /\ n = occurrences value_eq_dec category_of
                          (category_of doc) coll.
Proof.
  intros I. unfold summary_of, breakdown_of in I; simpl in I.
  apply breakdown_entries_from in I as [[]|(g & I & E)].
  apply (Permutation_in _ (aggregate_perm coll)) in I.
  rewrite group_count_tally in I. apply In_tally in I as [-> P].
  split; [exact P|].
  apply (occ_pos_In value_eq_dec category_of) in P.
  apply in_map_iff in P as (doc & <- & Id).
  exists doc. auto.
Qed.

Lemma breakdown_values_are_group_counts_witness :
  In (VStr "Unknown", 1)
     (breakdown (summary_of
        (aggregate [stored "0" VNone; stored "1" (VStr "Unknown")])))
  /\ 0 < 1.
Proof.
  assert (I : In (VStr "Unknown", 1)
                (breakdown (summary_of
                   (aggregate [stored "0" VNone; stored "1" (VStr "Unknown")]))))
    by (now left).
  split; [exact I|].
  exact (proj1 (@breakdown_values_are_group_counts
                  [stored "0" VNone; stored "1" (VStr "Unknown")]
                  (VStr "Unknown") 1 I)).
Defined.

(** X14. The keys of the breakdown are pairwise distinct; and when no
    two groups are filed under the same label, the breakdown lists the
    groups in the order of the aggregation, each under its label with its
    count, that is by descending count. *)
Theorem breakdown_is_ordered (coll : list document) :
  NoDup (PyDict.keys (breakdown (summary_of (aggregate coll))))
  /\ (NoDup (map label (map fst (aggregate coll))) ->
        breakdown (summary_of (aggregate coll))
        = map (fun item => (label (fst item), snd item)) (aggregate coll)
        /\ StronglySorted (@count_desc value)
             (breakdown (summary_of (aggregate coll)))).
Proof.
  split.
  - unfold summary_of, breakdown_of; simpl.
    apply NoDup_breakdown_from. constructor.
  - intros ND. unfold summary_of; simpl.
    rewrite breakdown_of_distinct by assumption. split; [reflexivity|].
    apply (count_desc_relabel (fun item => label (fst item))).
    apply sorted_count_desc.
Qed.

Lemma breakdown_is_ordered_witness :
  NoDup (map label (map fst
           (aggregate [stored "0" VNone; stored "1" (VStr "tone");
                       stored "2" (VStr "tone")])))
  /\ breakdown (summary_of
       (aggregate [stored "0" VNone; stored "1" (VStr "tone");
                   stored "2" (VStr "tone")]))
     = [(VStr "tone", 2); (VStr "Unknown", 1)].
Proof.
  assert (ND : NoDup (map label (map fst
                 (aggregate [stored "0" VNone; stored "1" (VStr "tone");
                             stored "2" (VStr "tone")])))).
  { vm_compute. repeat constructor; simpl;
      intros H; repeat (destruct H as [H|H]; [discriminate|]); exact H. }
  split; [exact ND|].
  exact (proj1 (proj2 (breakdown_is_ordered
           [stored "0" VNone; stored "1" (VStr "tone");
            stored "2" (VStr "tone")]) ND)).
Defined.

(* ================================================================== *)
(** * The diagnostic endpoint *)

Lemma chars_slice_to (n : nat) (s : string) :
  chars (slice_to n s) = Nat.min n (chars s).
Proof.
  revert n; induction s as [|c s IH]; intros n; simpl.
  - now rewrite Nat.min_0_r.
  - destruct (is_continuation c) eqn:C; simpl.
    + rewrite C. apply IH.
    + destruct n as [|n]; simpl; [reflexivity|]. rewrite C, IH. reflexivity.
Qed.

Lemma slice_to_short (n : nat) (s : string) :
  chars s <= n -> slice_to n s = s.
Proof.
  revert n; induction s as [|c s IH]; intros n; simpl; [reflexivity|].
  destruct (is_continuation c).
  - intros L. now rewrite IH.
  - destruct n as [|n]; [lia|]. intros L. rewrite IH by lia. reflexivity.
Qed.

Lemma slice_to_prefix (n : nat) (s : string) :
  exists rest, s = slice_to n s ++ rest.
Proof.
  revert n; induction s as [|c s IH]; intros n; simpl; [now exists ""|].
  destruct (is_continuation c).
  - destruct (IH n) as [rest E]. exists rest. simpl. now rewrite <- E.
  - destruct n as [|n]; [now exists (String c s)|].
    destruct (IH n) as [rest E]. exists rest. simpl. now rewrite <- E.
Qed.

(** X15. The fields [database_url] and [database_name] of the
    diagnostic report the environment only: "Set" when the variable is
    set and not empty, "Not Set" otherwise.  What the branch for a
    configured [db] wrote there, the database's name included, is always
    overwritten, so the two fields are the same for every state of [db]
    and of the store. *)
Theorem diagnostic_reports_environment_only (env : Environ) (app app' : App) :
  database_url (test_database env app)
  = Some (if env_truthy (DATABASE_URL env) then "✅ Set" else "❌ Not Set")
  /\ database_name (test_database env app)
     = Some (if env_truthy (DATABASE_NAME env) then "✅ Set" else "❌ Not Set")
  /\ database_url (test_database env app)
     = database_url (test_database env app')
  /\ database_name (test_database env app)
     = database_name (test_database env app')
  /\ (DATABASE_URL env = Some "" ->
        database_url (test_database env app) = Some "❌ Not Set").
Proof.
  unfold test_database.
  destruct (db app), (db app'); simpl;
    destruct (list_collection_names (store app)),
             (list_collection_names (store app')); simpl;
    repeat split; intros ->; reflexivity.
Qed.

Lemma diagnostic_reports_environment_only_witness :
  DATABASE_URL {| DATABASE_URL := Some ""; DATABASE_NAME := Some "feedback" |}
  = Some ""
  /\ database_url
       (test_database
          {| DATABASE_URL := Some ""; DATABASE_NAME := Some "feedback" |}
          (app_with_collections ["feedback"]))
     = Some "❌ Not Set".
Proof.
  split; [reflexivity|].
  exact (proj2 (proj2 (proj2 (proj2
           (diagnostic_reports_environment_only
              {| DATABASE_URL := Some ""; DATABASE_NAME := Some "feedback" |}
              (app_with_collections ["feedback"])
              (app_with_collections ["feedback"]))))) eq_refl).
Defined.

(** X16. The diagnostic lists at most ten collections: the first ten
    names the store reports, and none when [db] is [None] or the listing
    fails. *)
Theorem diagnostic_lists_at_most_ten (env : Environ) (app : App) :
  List.length (diag_collections (test_database env app)) <= 10
  /\ (forall name names,
        db app = Some name ->
        list_collection_names (store app) = inr names ->
        diag_collections (test_database env app) = firstn 10 names
        /\ (List.length names <= 10 ->
              diag_collections (test_database env app) = names))
  /\ (db app = None -> diag_collections (test_database env app) = [])
  /\ (forall e, list_collection_names (store app) = inl e ->
        diag_collections (test_database env app) = []).
Proof.
  unfold test_database. split; [|split; [|split]].
  - destruct (db app); cbn -[firstn]; [|lia].
    destruct (list_collection_names (store app)); cbn -[firstn]; [lia|].
    rewrite length_firstn. lia.
  - intros name names -> ->. cbn -[firstn]. split; [reflexivity|].
    intros L. now apply firstn_all2.
  - intros ->. reflexivity.
  - intros e ->. now destruct (db app).
Qed.

Lemma diagnostic_lists_at_most_ten_witness :
  db (app_with_collections
        ["a"; "b"; "c"; "d"; "e"; "f"; "g"; "h"; "i"; "j"; "k"; "l"])
  = Some "db"
  /\ diag_collections
       (test_database {| DATABASE_URL := None; DATABASE_NAME := None |}
          (app_with_collections
             ["a"; "b"; "c"; "d"; "e"; "f"; "g"; "h"; "i"; "j"; "k"; "l"]))
     = ["a"; "b"; "c"; "d"; "e"; "f"; "g"; "h"; "i"; "j"].
Proof.
  split; [reflexivity|].
  exact (proj1 (proj1 (proj2 (diagnostic_lists_at_most_ten
           {| DATABASE_URL := None; DATABASE_NAME := None |}
           (app_with_collections
              ["a"; "b"; "c"; "d"; "e"; "f"; "g"; "h"; "i"; "j"; "k"; "l"])))
           "db" _ eq_refl eq_refl)).
Defined.

(** X17. The field [database] of the diagnostic tells the three states
    apart: "Available but not initialized" exactly when [db] is [None],
    "Connected & Working" exactly when [db] is configured and the listing
    succeeds, and otherwise "Connected but Error: " followed by the first
    50 characters of the error, the whole error when it has at most 50;
    the initial "Not Available" is never returned, and
    [connection_status] is "Connected" exactly when [db] is configured. *)
Theorem diagnostic_database_status (env : Environ) (app : App) :
  let r := test_database env app in
  database r <> "❌ Not Available"
  /\ (database r = "⚠️  Available but not initialized" <-> db app = None)
  /\ (database r = "✅ Connected & Working"
      <-> db app <> None /\ fault (store app) = None)
  /\ (forall name e, db app = Some name -> fault (store app) = Some e ->
        database r = "⚠️  Connected but Error: " ++ slice_to 50 e
        /\ chars (slice_to 50 e) = Nat.min 50 (chars e)
        /\ (exists rest, e = slice_to 50 e ++ rest)
        /\ (chars e <= 50 ->
              database r = "⚠️  Connected but Error: " ++ e))
  /\ (connection_status r = "Connected" <-> db app <> None)
  /\ backend r = "✅ Running".
Proof.
  unfold test_database, list_collection_names.
  destruct (db app) as [name|]; destruct (fault (store app)) as [e|];
    cbn -[slice_to firstn].
  - split; [discriminate|].
    split; [split; discriminate|].
    split; [split; [discriminate | intros [_ F]; discriminate]|].
    split; [|split; [split; [discriminate | reflexivity] | reflexivity]].
    intros name' e' _ [= <-]. split; [reflexivity|].
    split; [apply chars_slice_to|]. split; [apply slice_to_prefix|].
    intros L. now rewrite slice_to_short.
  - split; [discriminate|].
    split; [split; discriminate|].
    split; [split; [intros _; split; [discriminate | reflexivity] | reflexivity]|].
    split; [discriminate|].
    split; [split; [discriminate | reflexivity] | reflexivity].
  - split; [discriminate|].
    split; [split; reflexivity|].
    split; [split; [discriminate | intros [N _]; congruence]|].
    split; [discriminate|].
    split; [split; [discriminate | congruence] | reflexivity].
  - split; [discriminate|].
    split; [split; reflexivity|].
    split; [split; [discriminate | intros [N _]; congruence]|].
    split; [discriminate|].
    split; [split; [discriminate | congruence] | reflexivity].
Qed.

Lemma diagnostic_database_status_witness :
  db (faulty_app (repeat_text 60 "é")) = Some "db"
  /\ fault (store (faulty_app (repeat_text 60 "é")))
     = Some (repeat_text 60 "é")
  /\ database
       (test_database {| DATABASE_URL := Some "u"; DATABASE_NAME := None |}
          (faulty_app (repeat_text 60 "é")))
     = "⚠️  Connected but Error: " ++ repeat_text 50 "é"
  /\ chars (repeat_text 50 "é") = 50
  /\ String.length (repeat_text 50 "é") = 100.
Proof.
  split; [reflexivity|]. split; [reflexivity|].
  split; [|split; reflexivity].
  exact (proj1 (proj1 (proj2 (proj2 (proj2
           (diagnostic_database_status
              {| DATABASE_URL := Some "u"; DATABASE_NAME := None |}
              (faulty_app (repeat_text 60 "é"))))))
           "db" (repeat_text 60 "é") eq_refl eq_refl)).
Defined.
